(** * dbranch: a shallow embedding of the extent-map reader, the accounting
    walk, the proxy's backend resolution, the CLI's project handling and the
    configuration loader, with their specifications. *)

From Stdlib Require Import ZArith List String Ascii Bool Lia.
Import ListNotations.
Open Scope Z_scope.

(** ** Shared plumbing *)

(** Rust's [Result]. *)
Inductive result (T E : Type) : Type :=
| Ok (t : T)
| Err (e : E).
Arguments Ok {T E} t.
Arguments Err {T E} e.

(** What a Rust computation does besides returning: it may panic (an
    [unwrap] on [Err]/[None]), and a [loop] driven by fuel may not have
    finished within the fuel given. *)
Inductive outcome (A : Type) : Type :=
| Ret (a : A)
| Panic (msg : string)
| OutOfFuel.
Arguments Ret {A} a.
Arguments Panic {A} msg.
Arguments OutOfFuel {A}.

(** The panic messages of [Result::unwrap] and [Option::unwrap]. *)
Definition unwrap_err_msg : string :=
  "called `Result::unwrap()` on an `Err` value".
Definition unwrap_none_msg : string :=
  "called `Option::unwrap()` on a `None` value".

Definition u64_modulus : Z := 2 ^ 64.

(** [u64] addition and subtraction as the release build computes them. *)
Definition u64_add (a b : Z) : Z := (a + b) mod u64_modulus.
Definition u64_sub (a b : Z) : Z := (a - b) mod u64_modulus.

(** src/error.rs *)
Module Error.
Inductive AppError : Type :=
| Internal (message : string)
| Config (message : string)
| ConfigParsing (message : string)
| FileSystem (message : string)
| FileNotFound (path : string)
| ProjectAlreadyExists (name : string)
| ProjectNotFound (name : string)
| DefaultProjectNotFound
(* raised by cli.rs and config.rs; error.rs as listed lacks these two *)
| BranchAlreadyExists (name : string)
| BranchNotFound (name : string)
| Database (message : string)
| NoPortAvailable (min max : Z)
| Network (message : string)
| Auth (message : string)
| Permission (message : string)
| Btrfs (message : string)
| DiskMount (message : string)
| Docker (message : string)
| NotImplemented (command : string).
End Error.
Import Error.

(** ** src/fiemap.rs *)
Module Fiemap.

Inductive FiemapFlags : Type :=
| Last | Unknown | Delalloc | Encoded | DataCrypted | NotAligned
| DataInline | DataTail | Unwritten | Merged | Shared.

Scheme Equality for FiemapFlags.

(** The [#[repr(u32)]] discriminants. *)
Definition flag_bit (f : FiemapFlags) : Z :=
  match f with
  | Last => 1
  | Unknown => 2
  | Delalloc => 4
  | Encoded => 8
  | DataCrypted => 128
  | NotAligned => 256
  | DataInline => 512
  | DataTail => 1024
  | Unwritten => 2048
  | Merged => 4096
  | Shared => 8192
  end.

(** The order in which [from_bits] tests the flags. *)
Definition flags_in_order : list FiemapFlags :=
  [Last; Unknown; Delalloc; Encoded; DataCrypted; NotAligned;
   DataInline; DataTail; Unwritten; Merged; Shared].

(** [FiemapFlags::from_bits]: one push per flag whose bit is set. *)
Definition from_bits (flags : Z) : list FiemapFlags :=
  filter (fun f => negb (Z.land flags (flag_bit f) =? 0)) flags_in_order.

Record FiemapExtent : Type := {
  fe_logical : Z;
  fe_physical : Z;
  fe_length : Z;
  fe_flags : Z
}.

Record FiemapRequest : Type := {
  fm_start : Z;
  fm_length : Z;
  fm_flags : Z;
  fm_extent_count : Z
}.

Record Fiemap : Type := {
  extent : FiemapExtent;
  flags : list FiemapFlags
}.

Definition contains_flag (f : FiemapFlags) (fl : list FiemapFlags) : bool :=
  existsb (FiemapFlags_beq f) fl.

(** The kernel side of [ioctl(fd, FS_IOC_FIEMAP, &fr)]: given the request
    it returns the mapped extents (their number is [fm_mapped_extents]) or,
    for [ret == -1], the text of [io::Error::last_os_error()]. *)
Definition fiemap_ioctl : Type := FiemapRequest -> result (list FiemapExtent) string.

Definition is_last (e : FiemapExtent) : bool :=
  negb (Z.land (fe_flags e) (flag_bit Last) =? 0).

(** The inner [for i in 0..fm_mapped_extents]: push each extent, stop at
    one carrying LAST, otherwise move [current_offset] past it. Returns the
    extents gathered, the new offset and [found_last]. *)
Fixpoint scan_extents (exts : list FiemapExtent) (all_extents : list Fiemap)
    (current_offset : Z) : list Fiemap * Z * bool :=
  match exts with
  | [] => (all_extents, current_offset, false)
  | e :: rest =>
      let all_extents' :=
        all_extents ++ [{| extent := e; flags := from_bits (fe_flags e) |}] in
      if is_last e then (all_extents', current_offset, true)
      else scan_extents rest all_extents' (u64_add (fe_logical e) (fe_length e))
  end.

Section CheckFile.
Variable ioctl : fiemap_ioctl.

(** The request built at the top of each iteration. *)
Definition request_at (file_size current_offset : Z) : FiemapRequest :=
  {| fm_start := current_offset;
     fm_length := u64_sub file_size current_offset;
     fm_flags := 0;
     fm_extent_count := 32 |}.

(** The [loop] of [check_file], run with [fuel] iterations at most. On
    termination it returns the result and the requests issued, in order. *)
Fixpoint fiemap_loop (fuel : nat) (file_size current_offset : Z)
    (all_extents : list Fiemap)
    : option (result (list Fiemap) AppError * list FiemapRequest) :=
  match fuel with
  | O => None
  | S fuel' =>
      let fr := request_at file_size current_offset in
      match ioctl fr with
      | Err errno =>
          Some (Err (FileSystem ("FIEMAP ioctl failed: " ++ errno)%string), [fr])
      | Ok mapped =>
          if Nat.eqb (List.length mapped) 0 then Some (Ok all_extents, [fr])
          else
            let '(all_extents', current_offset', found_last) :=
              scan_extents mapped all_extents current_offset in
            if found_last || (Z.of_nat (List.length mapped) <? 32) then
              Some (Ok all_extents', [fr])
            else
              match fiemap_loop fuel' file_size current_offset' all_extents' with
              | Some (r, calls) => Some (r, fr :: calls)
              | None => None
              end
      end
  end.

(** [check_file]: files of length 0 return before any [ioctl]. *)
Definition check_file (fuel : nat) (file_size : Z)
    : option (result (list Fiemap) AppError * list FiemapRequest) :=
  if file_size =? 0 then Some (Ok [], [])
  else fiemap_loop fuel file_size 0 [].


(** The specification's reading of the loop, over the requests issued:
    each request asks for at most 32 extents from [off] with length
    [file size - off]; a call ends the loop when it fails, maps no extent,
    maps an extent carrying LAST, or maps fewer than 32 extents; otherwise
    the next request starts at [logical + length] of the last extent. *)
Definition ends_loop (r : result (list FiemapExtent) string) : Prop :=
  match r with
  | Err _ => True
  | Ok exts =>
      exts = [] \/ existsb is_last exts = true \/ (List.length exts < 32)%nat
  end.

Definition extent_end (e : FiemapExtent) : Z := u64_add (fe_logical e) (fe_length e).

Inductive fiemap_trace (file_size : Z) : Z -> list FiemapRequest -> Prop :=
| trace_stop : forall off,
    ends_loop (ioctl (request_at file_size off)) ->
    fiemap_trace file_size off [request_at file_size off]
| trace_next : forall off prefix e rest,
    ioctl (request_at file_size off) = Ok (prefix ++ [e]) ->
    List.length (prefix ++ [e]) = 32%nat ->
    existsb is_last (prefix ++ [e]) = false ->
    fiemap_trace file_size (extent_end e) rest ->
    fiemap_trace file_size off (request_at file_size off :: rest).

End CheckFile.

(** A directory tree as [get_folder_size] sees it. A regular file carries
    its [metadata().len()], whether [File::open] succeeds, and the kernel's
    FIEMAP answers for it; a directory carries its [read_dir] entries. *)
Inductive Node : Type :=
| FileNode (size : Z) (open_ok : bool) (ioctl : fiemap_ioctl)
| DirNode (entries : Entries)
with Entries : Type :=
| ENil
| ECons (name : string) (n : Node) (rest : Entries).

Record FileInfo : Type := {
  real_size : Z;
  shared_size : Z;
  is_compressed : bool;
  name : string
}.

(** [FolderInfo]; its [shared_size] is [folder_shared_size] here. *)
Record FolderInfo : Type := {
  logical_size : Z;
  folder_shared_size : Z;
  files : list FileInfo
}.

(** [.filter(Shared).map(fe_length).sum::<u64>()] *)
Definition shared_bytes (exts : list Fiemap) : Z :=
  fold_left u64_add
    (map (fun f => fe_length (extent f))
       (filter (fun f => contains_flag Shared (flags f)) exts)) 0.

(** [get_folder_size], with [fuel] bounding each [check_file] loop; [walk]
    is the [for entry in fs::read_dir(path)] loop. *)
Fixpoint get_folder_size (fuel : nat) (n : Node) : outcome (option FolderInfo) :=
  match n with
  | FileNode _ _ _ => Ret None
  | DirNode es =>
      match walk fuel es {| logical_size := 0; folder_shared_size := 0; files := [] |} with
      | Ret fi => Ret (Some fi)
      | Panic m => Panic m
      | OutOfFuel => OutOfFuel
      end
  end
with walk (fuel : nat) (es : Entries) (fi : FolderInfo) : outcome FolderInfo :=
  match es with
  | ENil => Ret fi
  | ECons nm child rest =>
      match child with
      | DirNode _ =>
          match get_folder_size fuel child with
          | Ret (Some sub) =>
              walk fuel rest
                {| logical_size := u64_add (logical_size fi) (logical_size sub);
                   folder_shared_size :=
                     u64_add (folder_shared_size fi) (folder_shared_size sub);
                   files := files fi ++ files sub |}
          | Ret None => walk fuel rest fi
          | Panic m => Panic m
          | OutOfFuel => OutOfFuel
          end
      | FileNode size open_ok ioctl =>
          if negb open_ok then Panic unwrap_err_msg
          else
            match check_file ioctl fuel size with
            | None => OutOfFuel
            | Some (Err _, _) => Panic unwrap_err_msg
            | Some (Ok exts, _) =>
                walk fuel rest
                  {| logical_size := u64_add (logical_size fi) size;
                     folder_shared_size :=
                       u64_add (folder_shared_size fi) (shared_bytes exts);
                     files := files fi ++
                       [{| real_size := size;
                           shared_size := shared_bytes exts;
                           is_compressed :=
                             existsb (fun f => contains_flag Encoded (flags f)) exts;
                           name := nm |}] |}
            end
      end
  end.

(** A directory tree in which some regular file (at any depth) opens but
    whose extent query fails. *)
Inductive failing_node (fuel : nat) : Node -> Prop :=
| fail_dir : forall es, failing_entries fuel es -> failing_node fuel (DirNode es)
with failing_entries (fuel : nat) : Entries -> Prop :=
| fail_here : forall nm size ioctl rest e calls,
    check_file ioctl fuel size = Some (Err e, calls) ->
    failing_entries fuel (ECons nm (FileNode size true ioctl) rest)
| fail_sub : forall nm es rest,
    failing_node fuel (DirNode es) ->
    failing_entries fuel (ECons nm (DirNode es) rest)
| fail_later : forall nm n rest,
    failing_entries fuel rest ->
    failing_entries fuel (ECons nm n rest).

Scheme failing_node_mind := Induction for failing_node Sort Prop
with failing_entries_mind := Induction for failing_entries Sort Prop.
Combined Scheme failing_mutind from failing_node_mind, failing_entries_mind.

End Fiemap.

(** ** src/cli.rs: the persisted project metadata. Rocq wants record fields
    to be distinct within a module, so [Branch]'s fields carry a [b_] prefix
    and [Project]'s a [p_] prefix where the names collide. Timestamps are
    seconds. *)
Module Cli.
Record Branch : Type := {
  b_name : string;
  b_port : Z;
  b_created_at : Z
}.

Record Project : Type := {
  p_name : string;
  p_path : string;
  active_branch : option string;
  p_port : Z;
  p_created_at : Z;
  branches : list Branch
}.

(** The [metadata.json] files under the config folder, keyed by project
    directory name. A directory exists exactly when it holds a metadata
    file. *)
Definition MetaStore : Type := string -> option Project.

(** [project.active_branch = a] *)
Definition with_active_branch (p : Project) (a : option string) : Project :=
  {| p_name := p_name p; p_path := p_path p; active_branch := a;
     p_port := p_port p; p_created_at := p_created_at p;
     branches := branches p |}.

Definition store_update (st : MetaStore) (k : string) (p : Project) : MetaStore :=
  fun k' => if String.eqb k' k then Some p else st k'.

Definition store_remove (st : MetaStore) (k : string) : MetaStore :=
  fun k' => if String.eqb k' k then None else st k'.
End Cli.
Import Cli.

(** ** src/config.rs *)
Module Config.

Inductive Approach : Type := NewDisk | ExistingDisk.

Record PostgresConfig : Type := {
  user : string;
  password : string;
  database : option string
}.

(** [FileConfigInfo]: the fields of [dbranch.config.json]. *)
Record FileConfigInfo : Type := {
  fc_api_port : option Z;
  fc_proxy_port : option Z;
  fc_approach : option Approach;
  fc_port_min : option Z;
  fc_port_max : option Z;
  fc_mount_point : option string;
  fc_default_project : option string;
  fc_postgres_config : option PostgresConfig;
  fc_projects : option (list string)
}.

(** What [serde_json] makes of ["{}"]. *)
Definition empty_file_config : FileConfigInfo :=
  {| fc_api_port := None; fc_proxy_port := None; fc_approach := None;
     fc_port_min := None; fc_port_max := None; fc_mount_point := None;
     fc_default_project := None; fc_postgres_config := None;
     fc_projects := None |}.

Record Config : Type := {
  path : string;
  config_path : string;
  approach : Approach;
  api_port : Z;
  proxy_port : Z;
  port_range : Z * Z;
  mount_point : string;
  default_project : option string;
  postgres_config : PostgresConfig;
  projects : list string
}.

(** [std::env::var]: [None] when the variable is unset. *)
Definition Env : Type := string -> option string.

Definition is_digit (c : ascii) : bool :=
  (48 <=? Z.of_nat (nat_of_ascii c)) && (Z.of_nat (nat_of_ascii c) <=? 57).

Fixpoint u16_digits (s : string) (acc : Z) : option Z :=
  match s with
  | EmptyString => Some acc
  | String c rest =>
      if is_digit c then
        let acc' := acc * 10 + (Z.of_nat (nat_of_ascii c) - 48) in
        if acc' <=? 65535 then u16_digits rest acc' else None
      else None
  end.

(** [str::parse::<u16>()]: an optional leading [+] and at least one
    decimal digit, the value at most 65535. *)
Definition parse_u16 (s : string) : option Z :=
  match s with
  | EmptyString => None
  | String c rest =>
      if Ascii.eqb c "+"%char then
        match rest with
        | EmptyString => None
        | _ => u16_digits rest 0
        end
      else u16_digits s 0
  end.

Definition bind_opt {A B} (o : option A) (f : A -> option B) : option B :=
  match o with Some a => f a | None => None end.

Definition or_opt {A} (o o' : option A) : option A :=
  match o with Some a => Some a | None => o' end.

Definition unwrap_or {A} (o : option A) (d : A) : A :=
  match o with Some a => a | None => d end.

(** [Path::join] of a relative component. *)
Definition path_join (a b : string) : string :=
  match a with
  | EmptyString => b
  | _ => if String.eqb (substring (String.length a - 1) 1 a) "/"
         then (a ++ b)%string else (a ++ "/" ++ b)%string
  end.

Definition default_postgres_config : PostgresConfig :=
  {| user := "dbranch_user"; password := "dbranch_pass"; database := None |}.

(** [Config::from_env]. *)
Definition from_env (env : Env) (p : string) (c : FileConfigInfo) : Config :=
  {| path := p;
     config_path := path_join p "dbranch.config.json";
     approach :=
       unwrap_or
         (or_opt (fc_approach c)
            (bind_opt (env "DBRANCH_APPROACH"%string) (fun v =>
               if String.eqb v "EXISTING_DISK" then Some ExistingDisk
               else Some NewDisk)))
         NewDisk;
     api_port :=
       unwrap_or (or_opt (bind_opt (env "DBRANCH_API_PORT"%string) parse_u16)
                    (fc_api_port c)) 8080;
     proxy_port :=
       unwrap_or (or_opt (bind_opt (env "DBRANCH_PROXY_PORT"%string) parse_u16)
                    (fc_proxy_port c)) 5432;
     port_range :=
       (unwrap_or (or_opt (bind_opt (env "DBRANCH_PORT_START"%string) parse_u16)
                     (fc_port_min c)) 7000,
        unwrap_or (or_opt (bind_opt (env "DBRANCH_PORT_END"%string) parse_u16)
                     (fc_port_max c)) 7999);
     mount_point :=
       unwrap_or (or_opt (env "DBRANCH_MOUNT_POINT"%string) (fc_mount_point c))
         "/mnt/dbranch";
     projects := unwrap_or (fc_projects c) [];
     postgres_config := unwrap_or (fc_postgres_config c) default_postgres_config;
     default_project :=
       or_opt (env "DBRANCH_DEFAULT_PROJECT"%string) (fc_default_project c) |}%string.

(** The environment variables [from_env] consults. *)
Definition override_vars : list string :=
  ["DBRANCH_APPROACH"; "DBRANCH_API_PORT"; "DBRANCH_PROXY_PORT";
   "DBRANCH_PORT_START"; "DBRANCH_PORT_END"; "DBRANCH_MOUNT_POINT";
   "DBRANCH_DEFAULT_PROJECT"]%string.

(** The layering the specification describes: the environment's value,
    else the file's, else the built-in default. *)
Definition layered {A} (from_env_var from_file_val : option A) (default : A) : A :=
  match from_env_var with
  | Some v => v
  | None => match from_file_val with Some v => v | None => default end
  end.

(** A config file on disk: well-formed JSON for [FileConfigInfo], or a
    document [serde_json] rejects. *)
Inductive ConfigFile : Type :=
| Parsed (c : FileConfigInfo)
| Unparsable (err : string).

(** The host filesystem as [from_file] uses it: the files, and which
    directories exist ([File::create] fails when the folder is missing). *)
Record Fs : Type := {
  fs_files : string -> option ConfigFile;
  fs_dirs : string -> bool
}.

Definition fs_write (fs : Fs) (file : string) (c : ConfigFile) : Fs :=
  {| fs_files := fun f => if String.eqb f file then Some c else fs_files fs f;
     fs_dirs := fs_dirs fs |}.

(** The [FileConfigInfo] written when the file is created. *)
Definition created_file_info (c : Config) : FileConfigInfo :=
  {| fc_api_port := Some (api_port c);
     fc_proxy_port := Some (proxy_port c);
     fc_approach := Some (approach c);
     fc_port_min := Some (fst (port_range c));
     fc_port_max := Some (snd (port_range c));
     fc_mount_point := Some (mount_point c);
     fc_default_project := default_project c;
     fc_postgres_config := Some (postgres_config c);
     fc_projects := Some [] |}.

(** [Config::from_file]. *)
Definition from_file (env : Env) (fs : Fs) : outcome (Fs * result Config AppError) :=
  let folder := unwrap_or (env "DBRANCH_CONFIG"%string) ".config"%string in
  let file_config := path_join folder "dbranch.config.json" in
  let '(needs_create, json) :=
    match fs_files fs file_config with
    | Some content => (false, content)
    | None => (true, Parsed empty_file_config)
    end in
  let parsed_config :=
    match json with
    | Parsed c => Ok (from_env env folder c)
    | Unparsable e =>
        Err (Error.Config ("Failed to read config file: Failed to parse configuration file: Failed to parse config file " ++ e))
    end%string in
  if needs_create then
    if fs_dirs fs folder then
      match parsed_config with
      | Ok c => Ret (fs_write fs file_config (Parsed (created_file_info c)), parsed_config)
      | Err _ => Panic unwrap_err_msg
      end
    else Ret (fs, Err (FileSystem "Failed to create config file"%string))
  else Ret (fs, parsed_config).

(** [Config::get_valid_port]. [bindable port] is whether
    [TcpListener::bind(("127.0.0.1", port))] succeeds at that moment;
    [held] are the sockets the process holds. The listener bound by a
    successful probe is a temporary of the [match], dropped on [return]. *)
Section Ports.
Variable bindable : Z -> bool.

Fixpoint release (p : Z) (held : list Z) : list Z :=
  match held with
  | [] => []
  | q :: hs => if q =? p then hs else q :: release p hs
  end.

(** [port_range.0..=port_range.1] *)
Definition port_window (lo hi : Z) : list Z :=
  map (fun i => lo + Z.of_nat i) (seq 0 (Z.to_nat (hi - lo + 1))).

Fixpoint probe_ports (ports : list Z) (held : list Z) : option Z * list Z :=
  match ports with
  | [] => (None, held)
  | port :: ps =>
      if bindable port then (Some port, release port (port :: held))
      else probe_ports ps held
  end.

Definition get_valid_port (c : Config) (held : list Z) : option Z * list Z :=
  probe_ports (port_window (fst (port_range c)) (snd (port_range c))) held.
End Ports.

(** [save_project_changes]: [File::create] of [<path>/<project.name>/
    metadata.json], which fails when that directory is missing. *)
Definition save_project_changes (st : MetaStore) (project : Project)
    : MetaStore * result unit AppError :=
  match st (p_name project) with
  | Some _ => (store_update st (p_name project) project, Ok tt)
  | None => (st, Err (FileSystem "Failed to create metadata file"%string))
  end.

(** [Config::set_active_branch]; reading the metadata [unwrap]s. *)
Definition set_active_branch (st : MetaStore) (project_name branch_name : string)
    : outcome (MetaStore * result unit AppError) :=
  match st project_name with
  | None => Panic unwrap_none_msg
  | Some project =>
      if existsb (fun b => String.eqb (b_name b) branch_name) (branches project)
         || String.eqb branch_name "main" then
        let project' :=
          with_active_branch project
            (if String.eqb branch_name "main" then None else Some branch_name) in
        Ret (save_project_changes st project')
      else Ret (st, Err (BranchNotFound branch_name))
  end%string.

End Config.

(** ** src/cli.rs: [CliHandler::handle_command] *)
Module CliHandler.
Import Config.

(** The start of [Commands::Init]: the duplicate check, then
    [get_valid_port().ok_or(NoPortAvailable { min, max })?]. *)
Definition init_valid_port (bindable : Z -> bool) (c : Config) (name : string)
    (held : list Z) : result Z AppError * list Z :=
  if existsb (String.eqb name) (projects c) then
    (Err (ProjectAlreadyExists name), held)
  else
    match get_valid_port bindable c held with
    | (None, held') => (Err (NoPortAvailable (fst (port_range c)) (snd (port_range c))), held')
    | (Some port, held') => (Ok port, held')
    end.

(** The persisted state one CLI invocation starts from and leaves behind:
    the [projects] and [default_project] of the config file, the project
    metadata, and the host ([W]: containers, mounts, loop devices, image
    files). *)
Record Disk (W : Type) : Type := {
  d_projects : list string;
  d_default : option string;
  d_meta : MetaStore;
  d_world : W
}.
Arguments d_projects {W}.
Arguments d_default {W}.
Arguments d_meta {W}.
Arguments d_world {W}.
Arguments Build_Disk {W}.

Section DeleteProject.
Variable W : Type.
(** [PostgresOperator::delete_database(project, name)] *)
Variable delete_database : W -> Project -> string -> W * result unit AppError.
(** [BtrfsOperator::unmount_disk] and [BtrfsOperator::cleanup_disk] *)
Variable unmount_disk : W -> Project -> W * result unit AppError.
Variable cleanup_disk : W -> Project -> W * result unit AppError.

(** [for branch in project.branches { delete_database(..)?; }] *)
Fixpoint delete_branches (w : W) (project : Project) (bs : list Branch)
    : W * result unit AppError :=
  match bs with
  | [] => (w, Ok tt)
  | b :: rest =>
      match delete_database w project (b_name b) with
      | (w', Err e) => (w', Err e)
      | (w', Ok _) => delete_branches w' project rest
      end
  end.

(** [Commands::DeleteProject]. The in-memory config is the one loaded
    from [d]; [remove_project] then [save_config] persist it.
    ([get_project_info]'s [debug!] argument is not evaluated at the
    INFO level the binary installs.) *)
Definition delete_project (name : string) (d : Disk W) : Disk W * result unit AppError :=
  if negb (existsb (String.eqb name) (d_projects d)) then
    (d, Err (ProjectNotFound name))
  else
    match d_meta d name with
    | None => (d, Err (ProjectNotFound name))
    | Some project =>
        let with_world w :=
          Build_Disk (d_projects d) (d_default d) (d_meta d) w in
        match delete_branches (d_world d) project (branches project) with
        | (w1, Err e) => (with_world w1, Err e)
        | (w1, Ok _) =>
            match delete_database w1 project (p_name project) with
            | (w2, Err e) => (with_world w2, Err e)
            | (w2, Ok _) =>
                let w3 := fst (unmount_disk w2 project) in
                let w4 := fst (cleanup_disk w3 project) in
                (* remove_project: retain, remove_dir_all, save_config *)
                let projects' :=
                  filter (fun p => negb (String.eqb p name)) (d_projects d) in
                let meta' := store_remove (d_meta d) name in
                (* unset the default project if it was this one, save_config *)
                let default' :=
                  match d_default d with
                  | Some df => if String.eqb df name then None else Some df
                  | None => None
                  end in
                (Build_Disk projects' default' meta' w4, Ok tt)
            end
        end
    end.
End DeleteProject.
End CliHandler.

(** ** src/main.rs: the proxy's accept loop *)
Module Main.

(** The backend port of one accepted connection, from the project snapshot
    read at accept time. *)
Definition resolve_target_port (project : option Project) : outcome Z :=
  match project with
  | None => Panic unwrap_none_msg
  | Some p =>
      match active_branch p with
      | Some branch_name =>
          match find (fun b => String.eqb (b_name b) branch_name) (branches p) with
          | Some b => Ret (b_port b)
          | None => Panic unwrap_none_msg
          end
      | None => Ret (p_port p)
      end
  end.

(** [while let Ok((client, addr)) = listener.accept().await]: one snapshot
    per accepted connection. Returns the backend ports handed to the
    spawned forwarders and how the loop ended. *)
Fixpoint accept_loop (snapshots : list (option Project)) : list Z * outcome unit :=
  match snapshots with
  | [] => ([], Ret tt)
  | s :: rest =>
      match resolve_target_port s with
      | Ret port => let '(ports, o) := accept_loop rest in (port :: ports, o)
      | Panic m => ([], Panic m)
      | OutOfFuel => ([], OutOfFuel)
      end
  end.
End Main.

(** ** src/database_operator.rs *)
Module DatabaseOperator.

(** The output of a [docker_wrapper] command. *)
Record CommandOutput : Type := {
  success : bool;
  stdout : string;
  stderr : string
}.

(** [str::contains] *)
Fixpoint str_contains (hay needle : string) : bool :=
  prefix needle hay ||
  match hay with
  | EmptyString => false
  | String _ rest => str_contains rest needle
  end.

Definition dquote : string := String (ascii_of_nat 34) EmptyString.

(** The two spellings of [State.Running = true] the code looks for. *)
Definition running_compact : string := (dquote ++ "Running" ++ dquote ++ ":true")%string.
Definition running_spaced : string := (dquote ++ "Running" ++ dquote ++ ": true")%string.

Definition is_empty (s : string) : bool :=
  match s with EmptyString => true | _ => false end.

(** [PostgresOperator::is_container_running], given what
    [InspectCommand::new(name).execute().await] produced. *)
Definition is_container_running (inspect_output : result CommandOutput string)
    : result bool AppError :=
  match inspect_output with
  | Ok output =>
      if success output && negb (is_empty (stdout output)) then
        Ok (str_contains (stdout output) running_compact
            || str_contains (stdout output) running_spaced)
      else Ok false
  | Err _ => Ok false
  end.
End DatabaseOperator.

(** ** src/config.rs: serialisation of [Approach] and the persisting
    operations of [Config] *)
Module ConfigOps.
Import Config.

(** [impl Serialize for Approach] *)
Definition approach_serialize (a : Approach) : string :=
  match a with
  | NewDisk => "NEW_DISK"
  | ExistingDisk => "EXISTING_DISK"
  end%string.

(** [impl Deserialize for Approach], with the text of serde's
    [unknown_variant] error for two expected variants. *)
Definition approach_deserialize (s : string) : result Approach string :=
  if String.eqb s "NEW_DISK" then Ok NewDisk
  else if String.eqb s "EXISTING_DISK" then Ok ExistingDisk
  else Err ("unknown variant `" ++ s ++ "`, expected `NEW_DISK` or `EXISTING_DISK`")%string.

(** Threading a Rust computation's result through a continuation. *)
Definition obind {A B} (o : outcome A) (k : A -> outcome B) : outcome B :=
  match o with
  | Ret a => k a
  | Panic m => Panic m
  | OutOfFuel => OutOfFuel
  end.

(** [self.projects = ps] *)
Definition with_projects (c : Config) (ps : list string) : Config :=
  {| path := path c; config_path := config_path c; approach := approach c;
     api_port := api_port c; proxy_port := proxy_port c;
     port_range := port_range c; mount_point := mount_point c;
     default_project := default_project c;
     postgres_config := postgres_config c; projects := ps |}.

(** [self.default_project = d] *)
Definition with_default_project (c : Config) (d : option string) : Config :=
  {| path := path c; config_path := config_path c; approach := approach c;
     api_port := api_port c; proxy_port := proxy_port c;
     port_range := port_range c; mount_point := mount_point c;
     default_project := d;
     postgres_config := postgres_config c; projects := projects c |}.

(** The [FileConfigInfo] [save_config] writes. *)
Definition saved_file_info (c : Config) : FileConfigInfo :=
  {| fc_api_port := Some (api_port c);
     fc_proxy_port := Some (proxy_port c);
     fc_approach := Some (approach c);
     fc_port_min := Some (fst (port_range c));
     fc_port_max := Some (snd (port_range c));
     fc_mount_point := Some (mount_point c);
     fc_default_project := default_project c;
     fc_postgres_config :=
       Some {| user := user (postgres_config c);
               password := password (postgres_config c);
               database := database (postgres_config c) |};
     fc_projects := Some (projects c) |}.

(** [Config::save_config]: [File::create(config_path)] is [unwrap]ped; it
    fails when the folder is missing ([config_path] is
    [path/dbranch.config.json] in every [Config] that [from_env] builds). *)
Definition save_config (c : Config) (fs : Fs) : outcome Fs :=
  if fs_dirs fs (path c) then
    Ret (fs_write fs (config_path c) (Parsed (saved_file_info c)))
  else Panic unwrap_err_msg.

(** [Config::set_default_project] *)
Definition set_default_project (c : Config) (fs : Fs) (project : string)
    : outcome (Config * Fs * result unit AppError) :=
  if negb (existsb (fun p => String.eqb p project) (projects c)) then
    Ret (c, fs, Err (ProjectNotFound project))
  else
    let c' := with_default_project c (Some project) in
    obind (save_config c' fs) (fun fs' => Ret (c', fs', Ok tt)).

(** [Config::get_project_info]: the metadata under [path/<name>] (or the
    default project's), [None] when there is no default, no file, or no
    parse. ([debug!] arguments are not evaluated at the INFO level.) *)
Definition get_project_info (c : Config) (st : MetaStore) (name : option string)
    : option Project :=
  match name with
  | Some n => st n
  | None =>
      match default_project c with
      | None => None
      | Some d => st d
      end
  end.

(** [Iterator::filter_map] *)
Fixpoint filter_map {A B} (f : A -> option B) (l : list A) : list B :=
  match l with
  | [] => []
  | a :: rest =>
      match f a with
      | Some b => b :: filter_map f rest
      | None => filter_map f rest
      end
  end.

(** [Config::get_projects] *)
Definition get_projects (c : Config) (st : MetaStore) : list Project :=
  filter_map (fun n => get_project_info c st (Some n)) (projects c).

(** [Config::create_project]: [fs::create_dir] errors are ignored; the
    project directory then exists if it existed before or the config folder
    exists, and [File::create] of its [metadata.json] fails otherwise. *)
Definition create_project (c : Config) (st : MetaStore) (fs : Fs) (project : Project)
    : MetaStore * result unit AppError :=
  let dir_exists :=
    match st (p_name project) with
    | Some _ => true
    | None => fs_dirs fs (path c)
    end in
  if dir_exists then (store_update st (p_name project) project, Ok tt)
  else (st, Err (FileSystem "Failed to create metadata file"%string)).

(** [Config::add_project] *)
Definition add_project (c : Config) (st : MetaStore) (fs : Fs) (project : Project)
    : outcome (Config * MetaStore * Fs) :=
  match create_project c st fs project with
  | (_, Err _) => Panic unwrap_err_msg
  | (st', Ok _) =>
      let c' := with_projects c (projects c ++ [p_name project]) in
      obind (save_config c' fs) (fun fs' => Ret (c', st', fs'))
  end.

(** [Config::remove_project]. [project_dir.exists()] holds when the
    project has metadata; [rmdir] is [fs::remove_dir_all] of that
    directory. That call is not atomic: when it fails, it may already have
    deleted [metadata.json] (the [bool] of its error is [true]) or not. *)
Definition remove_project (rmdir : string -> result unit (bool * string))
    (c : Config) (st : MetaStore) (fs : Fs) (name : string)
    : outcome (Config * MetaStore * Fs * result unit AppError) :=
  if negb (existsb (String.eqb name) (projects c)) then
    Ret (c, st, fs, Err (ProjectNotFound name))
  else
    let c' := with_projects c (filter (fun p => negb (String.eqb p name)) (projects c)) in
    let finish st' := obind (save_config c' fs) (fun fs' => Ret (c', st', fs', Ok tt)) in
    match st name with
    | Some _ =>
        match rmdir name with
        | Err (metadata_gone, e) =>
            Ret (c', (if metadata_gone then store_remove st name else st), fs,
                 Err (FileSystem ("Failed to remove project directory: " ++ e)%string))
        | Ok _ => finish (store_remove st name)
        end
    | None => finish st
    end.

(** [Branch { name, port, created_at }] pushed onto [project.branches] *)
Definition push_branch (p : Project) (b : Branch) : Project :=
  {| p_name := p_name p; p_path := p_path p; active_branch := active_branch p;
     p_port := p_port p; p_created_at := p_created_at p;
     branches := branches p ++ [b] |}.

(** [Config::create_branch]; [created_at] is [Utc::now()]. Reading the
    metadata is [.ok().unwrap()]. *)
Definition create_branch (st : MetaStore) (project_name branch_name : string)
    (valid_port created_at : Z) : outcome (MetaStore * result unit AppError) :=
  match st project_name with
  | None => Panic unwrap_none_msg
  | Some project =>
      Ret (save_project_changes st
             (push_branch project
                {| b_name := branch_name; b_port := valid_port;
                   b_created_at := created_at |}))
  end.
End ConfigOps.

(** ** src/cli.rs: more arms of [CliHandler::handle_command] *)
Module Commands.
Import Config ConfigOps.

(** [Commands::SetDefault]: [set_default_project(..).unwrap()] *)
Definition handle_set_default (c : Config) (fs : Fs) (name : string)
    : outcome (Config * Fs * result unit AppError) :=
  obind (set_default_project c fs name) (fun '(c', fs', r) =>
    match r with
    | Ok _ => Ret (c', fs', Ok tt)
    | Err _ => Panic unwrap_err_msg
    end).

(** The end of [Commands::Init], once the disk and the container are up:
    [add_project(project)], then, with no default project yet,
    [set_default_project(name).unwrap()]. *)
Definition init_register (c : Config) (st : MetaStore) (fs : Fs) (project : Project)
    : outcome (Config * MetaStore * Fs * result unit AppError) :=
  obind (add_project c st fs project) (fun '(c1, st1, fs1) =>
    match default_project c1 with
    | Some _ => Ret (c1, st1, fs1, Ok tt)
    | None =>
        obind (set_default_project c1 fs1 (p_name project)) (fun '(c2, fs2, r) =>
          match r with
          | Ok _ => Ret (c2, st1, fs2, Ok tt)
          | Err _ => Panic unwrap_err_msg
          end)
    end).

(** [Commands::Use] *)
Definition handle_use (c : Config) (st : MetaStore) (name : string)
    : outcome (MetaStore * result unit AppError) :=
  match get_project_info c st None with
  | None => Ret (st, Err DefaultProjectNotFound)
  | Some project =>
      if negb (existsb (fun b => String.eqb (b_name b) name) (branches project))
         && negb (String.eqb name "main") then
        Ret (st, Err (BranchNotFound name))
      else
        obind (set_active_branch st (p_name project) name) (fun '(st', r) =>
          match r with
          | Ok _ => Ret (st', Ok tt)
          | Err _ => Panic unwrap_err_msg
          end)
  end%string.
End Commands.

(** ** src/main.rs: one round of [sync_config] *)
Module Sync.
Import Config ConfigOps.

(** After the two-second sleep: [Config::from_file()]; on success both
    shared values are replaced, on error (only constructed, never raised)
    both are kept. *)
Definition sync_tick (env : Env) (fs : Fs) (st : MetaStore)
    (config : Config) (project : option Project)
    : outcome (Fs * Config * option Project) :=
  obind (from_file env fs) (fun '(fs', r) =>
    match r with
    | Ok new_config =>
        Ret (fs', new_config, get_project_info new_config st (default_project new_config))
    | Err _ => Ret (fs', config, project)
    end).
End Sync.


(** ** Reading of [get_folder_size]'s result: the regular files of a tree,
    with their lengths, in [read_dir] order, depth first. *)
Module FolderSpec.
Import Fiemap.

Fixpoint node_files (n : Node) : list (string * Z) :=
  match n with
  | FileNode _ _ _ => []
  | DirNode es => entries_files es
  end
with entries_files (es : Entries) : list (string * Z) :=
  match es with
  | ENil => []
  | ECons nm child rest =>
      match child with
      | FileNode size _ _ => (nm, size) :: entries_files rest
      | DirNode _ => node_files child ++ entries_files rest
      end
  end.

(** [iter().sum::<u64>()] *)
Definition u64_sum (l : list Z) : Z := fold_left u64_add l 0.

Scheme node_mind := Induction for Node Sort Prop
with entries_mind := Induction for Entries Sort Prop.
Combined Scheme node_entries_mutind from node_mind, entries_mind.
End FolderSpec.

(** ** Concrete inputs *)
Module Fixtures.
Import Fiemap.

(** A file of [nblocks] 4 KiB blocks, one extent per block, the last one
    flagged LAST; the kernel honours [fm_start] and [fm_extent_count]. *)
Definition block_extents (nblocks : nat) (start : Z) : list FiemapExtent :=
  let first := Z.to_nat (start / 4096) in
  map (fun i =>
         {| fe_logical := Z.of_nat i * 4096;
            fe_physical := 1048576 + Z.of_nat i * 4096;
            fe_length := 4096;
            fe_flags := if Nat.eqb (S i) nblocks then 1 else 0 |})
    (seq first (nblocks - first)).

Definition block_ioctl (nblocks : nat) : fiemap_ioctl := fun req =>
  Ok (firstn (Z.to_nat (fm_extent_count req)) (block_extents nblocks (fm_start req))).

(** A file whose FIEMAP [ioctl] fails. *)
Definition eio_ioctl : fiemap_ioctl := fun _ => Err "Input/output error (os error 5)"%string.

(** [a] (extent query fails) followed by [b] (one shared block). *)
Definition tree_with_failing_file : Node :=
  DirNode (ECons "a" (FileNode 4096 true eio_ioctl)
             (ECons "b" (FileNode 4096 true (block_ioctl 1)) ENil)).

(** [b] (one block) and [sub/c] (two blocks). *)
Definition tree_two_files : Node :=
  DirNode (ECons "b" (FileNode 4096 true (block_ioctl 1))
             (ECons "sub" (DirNode (ECons "c" (FileNode 8192 true (block_ioctl 2)) ENil)) ENil)).

Definition tree_nested_failing_file : Node :=
  DirNode (ECons "b" (FileNode 4096 true (block_ioctl 1))
             (ECons "sub" (DirNode (ECons "a" (FileNode 4096 true eio_ioctl) ENil)) ENil)).

(** A project [demo] whose main container listens on 7000 and with one
    branch [feature-x] on 7001. *)
Definition demo_project (active : option string) : Project :=
  {| p_name := "demo"; p_path := ".config/demo"; active_branch := active;
     p_port := 7000; p_created_at := 0;
     branches := [{| b_name := "feature-x"; b_port := 7001; b_created_at := 0 |}] |}%string.

(** The persisted state after [init demo], with a host where every
    container and disk command succeeds. *)
Definition demo_disk : CliHandler.Disk unit :=
  CliHandler.Build_Disk ["demo"%string] (Some "demo"%string)
    (fun k => if String.eqb k "demo" then Some (demo_project None) else None) tt.

Definition noop_delete_database (w : unit) (_ : Project) (_ : string)
    : unit * result unit AppError := (w, Ok tt).
Definition noop_disk_command (w : unit) (_ : Project) : unit * result unit AppError :=
  (w, Ok tt).

Definition demo_store : MetaStore :=
  fun k => if String.eqb k "demo" then Some (demo_project None) else None.

(** No config file yet; every directory exists. *)
Definition empty_fs : Config.Fs :=
  {| Config.fs_files := fun _ => None; Config.fs_dirs := fun _ => true |}.

(** [DBRANCH_APPROACH=EXISTING_DISK] and [DBRANCH_API_PORT=80a]. *)
Definition env_approach_and_bad_port : Config.Env := fun v =>
  if String.eqb v "DBRANCH_APPROACH" then Some "EXISTING_DISK"%string
  else if String.eqb v "DBRANCH_API_PORT" then Some "80a"%string
  else None.

(** A config file holding [approach = NEW_DISK] and [api_port = 9000]. *)
Definition file_new_disk_9000 : Config.FileConfigInfo :=
  {| Config.fc_api_port := Some 9000; Config.fc_proxy_port := None;
     Config.fc_approach := Some Config.NewDisk;
     Config.fc_port_min := None; Config.fc_port_max := None;
     Config.fc_mount_point := None; Config.fc_default_project := None;
     Config.fc_postgres_config := None; Config.fc_projects := None |}.

(** [docker inspect] of a running container. *)
Definition running_inspect : DatabaseOperator.CommandOutput :=
  {| DatabaseOperator.success := true;
     DatabaseOperator.stdout :=
       ("[{" ++ DatabaseOperator.dquote ++ "State" ++ DatabaseOperator.dquote ++ ": {"
        ++ DatabaseOperator.running_spaced ++ "}}]")%string;
     DatabaseOperator.stderr := "" |}.

(** A config whose port window is [7000..7003]. *)
Definition window_config : Config.Config :=
  Config.from_env (fun v => if String.eqb v "DBRANCH_PORT_END" then Some "7003"%string
                            else None)
    ".config" Config.empty_file_config.
(** A config at [.config] listing [demo] (the default) and [other]. *)
Definition demo_config : Config.Config :=
  Config.from_env (fun _ => None) ".config"
    {| Config.fc_api_port := None; Config.fc_proxy_port := None;
       Config.fc_approach := None; Config.fc_port_min := None;
       Config.fc_port_max := None; Config.fc_mount_point := None;
       Config.fc_default_project := Some "demo"%string;
       Config.fc_postgres_config := None;
       Config.fc_projects := Some ["demo"; "other"]%string |}.
(** The config of a fresh install: no project, no default. *)
Definition first_config : Config.Config :=
  Config.from_env (fun _ => None) ".config" Config.empty_file_config.
End Fixtures.

(** * Theorems *)

Import Fiemap.

(** ** The FIEMAP loop *)

Lemma scan_extents_found_last (exts : list FiemapExtent) (acc : list Fiemap) (off : Z) :
  snd (scan_extents exts acc off) = existsb is_last exts.
Proof.
  revert acc off; induction exts as [|e rest IH]; intros acc off; [reflexivity|].
  simpl. destruct (is_last e); simpl; [reflexivity | apply IH].
Qed.

Lemma scan_extents_offset (prefix : list FiemapExtent) (e : FiemapExtent)
    (acc : list Fiemap) (off : Z) :
  existsb is_last (prefix ++ [e]) = false ->
  snd (fst (scan_extents (prefix ++ [e]) acc off)) = extent_end e.
Proof.
  revert acc off; induction prefix as [|e' rest IH]; intros acc off Hnl.
  - simpl in *. destruct (is_last e); [discriminate | reflexivity].
  - simpl in *. destruct (is_last e'); [discriminate|]. apply IH; exact Hnl.
Qed.

Lemma fiemap_loop_trace (ioctl : fiemap_ioctl)
    (Hbound : forall req exts, ioctl req = Ok exts ->
              (List.length exts <= Z.to_nat (fm_extent_count req))%nat) :
  forall fuel file_size off acc res calls,
    fiemap_loop ioctl fuel file_size off acc = Some (res, calls) ->
    fiemap_trace ioctl file_size off calls.
Proof.
  induction fuel as [|fuel IH]; intros file_size off acc res calls H; [discriminate|].
  simpl in H.
  destruct (ioctl (request_at file_size off)) as [mapped|errno] eqn:Eio.
  - destruct (Nat.eqb (List.length mapped) 0) eqn:Elen.
    + inversion H; subst. apply trace_stop. rewrite Eio. left.
      destruct mapped; [reflexivity | discriminate].
    + destruct (scan_extents mapped acc off) as [[acc' off'] found] eqn:Escan.
      pose proof (scan_extents_found_last mapped acc off) as Hfound.
      rewrite Escan in Hfound. simpl in Hfound.
      destruct (found || (Z.of_nat (List.length mapped) <? 32)) eqn:Estop.
      * inversion H; subst. apply trace_stop. rewrite Eio. right.
        apply orb_true_iff in Estop. destruct Estop as [Ef|Elt].
        -- left. congruence.
        -- right. apply Z.ltb_lt in Elt. lia.
      * destruct (fiemap_loop ioctl fuel file_size off' acc') as [[r rest]|] eqn:Erec;
          [|discriminate].
        inversion H; subst.
        apply orb_false_iff in Estop. destruct Estop as [Ef Elt].
        apply Z.ltb_ge in Elt.
        pose proof (Hbound _ _ Eio) as Hb. simpl in Hb.
        destruct mapped as [|m ms] eqn:Em; [discriminate|].
        destruct (exists_last (l := m :: ms) ltac:(discriminate)) as [prefix [e Hpe]].
        rewrite Hpe in *.
        pose proof (scan_extents_offset prefix e acc off) as Hoff.
        rewrite Escan in Hoff. simpl in Hoff.
        eapply trace_next.
        -- exact Eio.
        -- lia.
        -- congruence.
        -- rewrite <- Hoff by congruence. eapply IH. exact Erec.
  - inversion H; subst. apply trace_stop. rewrite Eio. exact I.
Qed.

(** C2. [check_file] asks the kernel for at most 32 extents per call, the
    first call from offset 0, each with length [file size - offset]; it stops
    after a call that fails, maps no extent, maps an extent carrying LAST, or
    maps fewer than 32 extents, and after any other call it asks again from
    [logical + length] of the last extent mapped. A file of length 0 yields
    the empty list and no call at all. (The kernel maps at most
    [fm_extent_count] extents.) *)
Theorem check_file_request_sequence (ioctl : fiemap_ioctl)
    (Hbound : forall req exts, ioctl req = Ok exts ->
              (List.length exts <= Z.to_nat (fm_extent_count req))%nat)
    (fuel : nat) (file_size : Z) :
  (file_size = 0 -> check_file ioctl fuel file_size = Some (Ok [], [])) /\
  (forall res calls,
     check_file ioctl fuel file_size = Some (res, calls) ->
     file_size <> 0 -> fiemap_trace ioctl file_size 0 calls).
Proof.
  split.
  - intros ->. reflexivity.
  - intros res calls H Hnz. unfold check_file in H.
    apply Z.eqb_neq in Hnz. rewrite Hnz in H.
    eapply fiemap_loop_trace; eassumption.
Qed.

Lemma check_file_request_sequence_witness :
  match check_file (Fixtures.block_ioctl 40) 4 (40 * 4096) with
  | Some (_, calls) =>
      List.length calls = 2%nat /\ fiemap_trace (Fixtures.block_ioctl 40) (40 * 4096) 0 calls
  | None => False
  end.
Proof.
  destruct (check_file (Fixtures.block_ioctl 40) 4 (40 * 4096)) as [[res calls]|] eqn:E.
  - split.
    + vm_compute in E. inversion E. reflexivity.
    + apply (proj2 (check_file_request_sequence (Fixtures.block_ioctl 40)
                      (fun req exts H => ltac:(unfold Fixtures.block_ioctl in H;
                                               injection H as <-; apply firstn_le_length))
                      4 (40 * 4096)) res calls E).
      vm_compute. discriminate.
  - vm_compute in E. discriminate.
Defined.

(** ** The accounting walk *)

Lemma failing_tree_no_result (fuel : nat) :
  (forall n, failing_node fuel n -> forall r, get_folder_size fuel n <> Ret r) /\
  (forall es, failing_entries fuel es -> forall fi r, walk fuel es fi <> Ret r).
Proof.
  apply failing_mutind.
  - intros es _ IH r. simpl.
    destruct (walk fuel es _) eqn:E; try discriminate.
    exfalso. exact (IH _ _ E).
  - intros nm size ioctl rest e calls Hchk fi r. simpl.
    rewrite Hchk. discriminate.
  - intros nm es rest _ IH fi r. cbn [walk].
    destruct (get_folder_size fuel (DirNode es)) as [[sub|]| |]; try discriminate;
      exfalso; exact (IH _ eq_refl).
  - intros nm n rest _ IH fi r. destruct n as [size open_ok ioctl|es]; cbn [walk].
    + destruct open_ok; simpl; [|discriminate].
      destruct (check_file ioctl fuel size) as [[[exts|e] calls]|]; try discriminate.
      apply IH.
    + destruct (get_folder_size fuel (DirNode es)) as [[sub|]| |]; try discriminate;
        apply IH.
Qed.

(** C3 (as amended). A failed extent query on any regular file of the tree
    is fatal to the accounting walk: [get_folder_size] returns no
    [FolderInfo] at all, it panics on [file_info.unwrap()] (or an earlier
    query loop has not finished). *)
Theorem get_folder_size_fiemap_error_fatal (fuel : nat) (n : Node) :
  failing_node fuel n ->
  (exists m, get_folder_size fuel n = Panic m) \/ get_folder_size fuel n = OutOfFuel.
Proof.
  intros Hf. pose proof (proj1 (failing_tree_no_result fuel) n Hf) as Hno.
  destruct (get_folder_size fuel n) as [r|m|] eqn:E.
  - exfalso. exact (Hno r eq_refl).
  - left. exists m. reflexivity.
  - right. reflexivity.
Qed.

Lemma get_folder_size_fiemap_error_fatal_witness :
  failing_node 4 Fixtures.tree_nested_failing_file /\
  get_folder_size 4 Fixtures.tree_nested_failing_file = Panic unwrap_err_msg.
Proof.
  assert (Hf : failing_node 4 Fixtures.tree_nested_failing_file).
  { apply fail_dir. apply fail_later. apply fail_sub. apply fail_dir.
    eapply fail_here. vm_compute. reflexivity. }
  split; [exact Hf|].
  destruct (get_folder_size_fiemap_error_fatal 4 _ Hf) as [[m E]|E];
    vm_compute in E |- *; congruence.
Defined.

(** C3, counterexample. The claim has the walk skip a file whose extent
    query fails, count zero shared bytes for it and go on with the other
    entries; on a directory holding such a file [a] and a readable file [b],
    [get_folder_size] panics instead of returning a [FolderInfo]. *)
Lemma get_folder_size_error_not_skipped :
  get_folder_size 4 Fixtures.tree_with_failing_file = Panic unwrap_err_msg /\
  ~ (exists fi, get_folder_size 4 Fixtures.tree_with_failing_file = Ret (Some fi)).
Proof.
  split.
  - vm_compute. reflexivity.
  - intros [fi E]. vm_compute in E. discriminate.
Qed.

(** ** The proxy's backend resolution *)

Lemma accept_loop_prefix (pre rest : list (option Project)) (m : string) (s : option Project) :
  (forall s', In s' pre -> exists port, Main.resolve_target_port s' = Ret port) ->
  Main.resolve_target_port s = Panic m ->
  snd (Main.accept_loop (pre ++ s :: rest)) = Panic m /\
  List.length (fst (Main.accept_loop (pre ++ s :: rest))) = List.length pre.
Proof.
  intros Hpre Hs. induction pre as [|s' pre IH]; simpl.
  - rewrite Hs. split; reflexivity.
  - destruct (Hpre s' (or_introl eq_refl)) as [port Hp]. rewrite Hp.
    destruct IH as [IH1 IH2]; [intros x Hx; apply Hpre; right; exact Hx|].
    destruct (Main.accept_loop (pre ++ s :: rest)) as [ports o]. simpl in *.
    split; [exact IH1 | f_equal; exact IH2].
Qed.

(** C4 (as amended). Each accepted connection is routed from the project
    snapshot read at accept time: with no active branch to the project's
    main port, with an active branch to the port of the first branch of that
    name. When no branch carries the active name, the [unwrap] panics and the
    accept loop stops: the connections accepted before it were routed, no
    later one is. *)
Theorem resolve_target_port_at_accept (p : Project) (pre rest : list (option Project)) :
  (active_branch p = None -> Main.resolve_target_port (Some p) = Ret (p_port p)) /\
  (forall bn, active_branch p = Some bn -> In bn (map b_name (branches p)) ->
     exists b, find (fun b => String.eqb (b_name b) bn) (branches p) = Some b /\
               b_name b = bn /\ Main.resolve_target_port (Some p) = Ret (b_port b)) /\
  (forall bn, active_branch p = Some bn -> ~ In bn (map b_name (branches p)) ->
     (forall s, In s pre -> exists port, Main.resolve_target_port s = Ret port) ->
     snd (Main.accept_loop (pre ++ Some p :: rest)) = Panic unwrap_none_msg /\
     List.length (fst (Main.accept_loop (pre ++ Some p :: rest))) = List.length pre).
Proof.
  split; [|split].
  - intros Ha. simpl. rewrite Ha. reflexivity.
  - intros bn Ha Hin.
    destruct (find (fun b => String.eqb (b_name b) bn) (branches p)) as [b|] eqn:Ef.
    + exists b. split; [reflexivity|]. split.
      * apply find_some in Ef as [_ Eb]. apply String.eqb_eq in Eb. exact Eb.
      * simpl. rewrite Ha, Ef. reflexivity.
    + exfalso. apply in_map_iff in Hin as [b [Hb Hin]].
      pose proof (find_none _ _ Ef b Hin) as Hf. simpl in Hf.
      rewrite Hb, String.eqb_refl in Hf. discriminate.
  - intros bn Ha Hnin Hpre. apply accept_loop_prefix; [exact Hpre|].
    simpl. rewrite Ha.
    destruct (find (fun b => String.eqb (b_name b) bn) (branches p)) as [b|] eqn:Ef;
      [|reflexivity].
    exfalso. apply find_some in Ef as [Hin Eb]. apply String.eqb_eq in Eb.
    apply Hnin. apply in_map_iff. exists b. split; assumption.
Qed.

Lemma resolve_target_port_at_accept_witness :
  Main.resolve_target_port (Some (Fixtures.demo_project None)) = Ret 7000 /\
  snd (Main.accept_loop
         [Some (Fixtures.demo_project None);
          Some (Fixtures.demo_project (Some "feature-x"%string));
          Some (Fixtures.demo_project (Some "gone"%string));
          Some (Fixtures.demo_project None)]) = Panic unwrap_none_msg.
Proof.
  split.
  - apply (proj1 (resolve_target_port_at_accept (Fixtures.demo_project None) [] [])).
    reflexivity.
  - destruct (proj2 (proj2 (resolve_target_port_at_accept
                              (Fixtures.demo_project (Some "gone"%string))
                              [Some (Fixtures.demo_project None);
                               Some (Fixtures.demo_project (Some "feature-x"%string))]
                              [Some (Fixtures.demo_project None)]))
                "gone"%string eq_refl) as [H _].
    + simpl. intros [E|[]]. discriminate.
    + intros s [<-|[<-|[]]]; eexists; reflexivity.
    + exact H.
Defined.

(** C4, counterexample. The claim has a connection whose active branch is
    not among the snapshot's branches closed, and the proxy go on; here the
    first connection names a vanished branch, the loop panics, and the next
    connection (bound for main on 7000) is never routed. *)
Lemma proxy_vanished_branch_stops_accept_loop :
  Main.accept_loop [Some (Fixtures.demo_project (Some "gone"%string));
                    Some (Fixtures.demo_project None)]
  = ([], Panic unwrap_none_msg).
Proof. reflexivity. Qed.

(** ** delete-project *)

Lemma delete_project_success_drops_name (W : Type)
    (db : W -> Project -> string -> W * result unit AppError)
    (um cl : W -> Project -> W * result unit AppError)
    (name : string) (d d1 : CliHandler.Disk W) :
  CliHandler.delete_project W db um cl name d = (d1, Ok tt) ->
  existsb (String.eqb name) (CliHandler.d_projects d1) = false.
Proof.
  unfold CliHandler.delete_project. intros H.
  destruct (existsb (String.eqb name) (CliHandler.d_projects d)); simpl in H;
    [|discriminate].
  destruct (CliHandler.d_meta d name) as [project|]; [|discriminate].
  destruct (CliHandler.delete_branches W db (CliHandler.d_world d) project
              (branches project)) as [w1 [u|e]]; [|discriminate].
  destruct (db w1 project (p_name project)) as [w2 [u'|e]]; [|discriminate].
  inversion H; subst. simpl.
  apply not_true_iff_false. intros Hex.
  apply existsb_exists in Hex as [x [Hin Heq]].
  apply filter_In in Hin as [_ Hneq]. apply String.eqb_eq in Heq. subst x.
  rewrite String.eqb_refl in Hneq. discriminate.
Qed.

(** C5 (as amended). [delete-project] is not idempotent: once
    [delete-project p] has succeeded, [p] is gone from the config's project
    list, so a second [delete-project p] stops at the existence check with
    [ProjectNotFound p] and leaves the persisted state as it was. *)
Theorem delete_project_repeat_not_found (W : Type)
    (db : W -> Project -> string -> W * result unit AppError)
    (um cl : W -> Project -> W * result unit AppError)
    (name : string) (d d1 : CliHandler.Disk W) :
  CliHandler.delete_project W db um cl name d = (d1, Ok tt) ->
  CliHandler.delete_project W db um cl name d1 = (d1, Err (ProjectNotFound name)).
Proof.
  intros H. apply delete_project_success_drops_name in H.
  unfold CliHandler.delete_project. rewrite H. reflexivity.
Qed.

Lemma delete_project_repeat_not_found_witness :
  snd (CliHandler.delete_project unit Fixtures.noop_delete_database
         Fixtures.noop_disk_command Fixtures.noop_disk_command "demo" Fixtures.demo_disk)
  = Ok tt /\
  CliHandler.delete_project unit Fixtures.noop_delete_database
    Fixtures.noop_disk_command Fixtures.noop_disk_command "demo"
    (fst (CliHandler.delete_project unit Fixtures.noop_delete_database
            Fixtures.noop_disk_command Fixtures.noop_disk_command "demo" Fixtures.demo_disk))
  = (fst (CliHandler.delete_project unit Fixtures.noop_delete_database
            Fixtures.noop_disk_command Fixtures.noop_disk_command "demo" Fixtures.demo_disk),
     Err (ProjectNotFound "demo")).
Proof.
  split.
  - vm_compute. reflexivity.
  - apply (delete_project_repeat_not_found unit Fixtures.noop_delete_database
           Fixtures.noop_disk_command Fixtures.noop_disk_command "demo" Fixtures.demo_disk).
    vm_compute. reflexivity.
Defined.

(** C5, counterexample. The claim has a second [delete-project demo] after a
    successful one return success; it returns [ProjectNotFound demo]. *)
Lemma delete_project_second_call_errors :
  let first := CliHandler.delete_project unit Fixtures.noop_delete_database
                 Fixtures.noop_disk_command Fixtures.noop_disk_command "demo"
                 Fixtures.demo_disk in
  snd first = Ok tt /\
  snd (CliHandler.delete_project unit Fixtures.noop_delete_database
         Fixtures.noop_disk_command Fixtures.noop_disk_command "demo" (fst first))
  = Err (ProjectNotFound "demo") /\
  snd (CliHandler.delete_project unit Fixtures.noop_delete_database
         Fixtures.noop_disk_command Fixtures.noop_disk_command "demo" (fst first))
  <> Ok tt.
Proof.
  vm_compute. split; [reflexivity|]. split; [reflexivity|]. discriminate.
Qed.

(** ** Port allocation *)

Section PortScan.
Variable bindable : Z -> bool.
Variable lo : Z.

Lemma probe_window_some (n k : nat) (held : list Z) (p : Z) (held' : list Z) :
  Config.probe_ports bindable (map (fun i => lo + Z.of_nat i) (seq k n)) held
    = (Some p, held') ->
  exists i, (k <= i < k + n)%nat /\ p = lo + Z.of_nat i /\ bindable p = true /\
    (forall j, (k <= j < i)%nat -> bindable (lo + Z.of_nat j) = false) /\
    held' = held.
Proof.
  revert k. induction n as [|n IH]; intros k H; [discriminate|].
  simpl in H. destruct (bindable (lo + Z.of_nat k)) eqn:Eb.
  - inversion H; subst. exists k. split; [lia|]. split; [reflexivity|].
    split; [exact Eb|]. split; [intros j Hj; lia|].
    simpl. rewrite Z.eqb_refl. reflexivity.
  - destruct (IH (S k) H) as [i [Hi [Hp [Hb [Hbefore Hh]]]]].
    exists i. split; [lia|]. split; [exact Hp|]. split; [exact Hb|].
    split; [|exact Hh].
    intros j Hj. destruct (Nat.eq_dec j k) as [->|Hne]; [exact Eb|].
    apply Hbefore. lia.
Qed.

Lemma probe_window_none (n k : nat) (held held' : list Z) :
  Config.probe_ports bindable (map (fun i => lo + Z.of_nat i) (seq k n)) held
    = (None, held') ->
  held' = held /\ forall j, (k <= j < k + n)%nat -> bindable (lo + Z.of_nat j) = false.
Proof.
  revert k. induction n as [|n IH]; intros k H.
  - simpl in H. inversion H; subst. split; [reflexivity|]. intros j Hj; lia.
  - simpl in H. destruct (bindable (lo + Z.of_nat k)) eqn:Eb; [discriminate|].
    destruct (IH (S k) H) as [Hh Hall]. split; [exact Hh|].
    intros j Hj. destruct (Nat.eq_dec j k) as [->|Hne]; [exact Eb|].
    apply Hall. lia.
Qed.

Lemma probe_window_all_unbindable (n k : nat) (held : list Z) :
  (forall j, (k <= j < k + n)%nat -> bindable (lo + Z.of_nat j) = false) ->
  Config.probe_ports bindable (map (fun i => lo + Z.of_nat i) (seq k n)) held
    = (None, held).
Proof.
  revert k. induction n as [|n IH]; intros k Hall; [reflexivity|].
  simpl. rewrite (Hall k ltac:(lia)). apply IH. intros j Hj. apply Hall. lia.
Qed.
End PortScan.

(** C6. [get_valid_port] returns the lowest port of [[port_min, port_max]]
    that binds on 127.0.0.1, every port below it in the window having failed
    to bind, and the probing socket is not kept; it returns [None] only when
    no port of the window binds, and then [init] fails with
    [NoPortAvailable(port_min, port_max)]. *)
Theorem get_valid_port_first_bindable (bindable : Z -> bool) (c : Config.Config)
    (held : list Z) :
  (forall p held',
     Config.get_valid_port bindable c held = (Some p, held') ->
     fst (Config.port_range c) <= p <= snd (Config.port_range c) /\
     bindable p = true /\
     (forall q, fst (Config.port_range c) <= q < p -> bindable q = false) /\
     held' = held) /\
  (forall held',
     Config.get_valid_port bindable c held = (None, held') ->
     held' = held /\
     forall q, fst (Config.port_range c) <= q <= snd (Config.port_range c) ->
               bindable q = false) /\
  (forall name,
     existsb (String.eqb name) (Config.projects c) = false ->
     (forall q, fst (Config.port_range c) <= q <= snd (Config.port_range c) ->
                bindable q = false) ->
     fst (CliHandler.init_valid_port bindable c name held)
     = Err (NoPortAvailable (fst (Config.port_range c)) (snd (Config.port_range c)))).
Proof.
  destruct (Config.port_range c) as [lo hi] eqn:Er. simpl.
  unfold Config.get_valid_port, Config.port_window. rewrite Er. simpl.
  split; [|split].
  - intros p held' H.
    destruct (probe_window_some bindable lo _ 0 held p held' H)
      as [i [Hi [Hp [Hb [Hbefore Hh]]]]].
    split; [lia|]. split; [exact Hb|]. split; [|exact Hh].
    intros q Hq. replace q with (lo + Z.of_nat (Z.to_nat (q - lo))) by lia.
    apply Hbefore. lia.
  - intros held' H.
    destruct (probe_window_none bindable lo _ 0 held held' H) as [Hh Hall].
    split; [exact Hh|].
    intros q Hq. replace q with (lo + Z.of_nat (Z.to_nat (q - lo))) by lia.
    apply Hall. lia.
  - intros name Hname Hall.
    unfold CliHandler.init_valid_port. rewrite Hname.
    unfold Config.get_valid_port, Config.port_window. rewrite Er. simpl.
    rewrite probe_window_all_unbindable; [reflexivity|].
    intros j Hj. apply Hall. lia.
Qed.

Lemma get_valid_port_first_bindable_witness :
  Config.get_valid_port (fun p => 7002 <=? p) Fixtures.window_config [] = (Some 7002, []) /\
  (forall q, 7000 <= q < 7002 -> (7002 <=? q) = false) /\
  fst (CliHandler.init_valid_port (fun _ => false) Fixtures.window_config "demo" [])
  = Err (NoPortAvailable 7000 7003).
Proof.
  assert (E : Config.get_valid_port (fun p => 7002 <=? p) Fixtures.window_config []
              = (Some 7002, [])) by (vm_compute; reflexivity).
  split; [exact E|]. split.
  - destruct (proj1 (get_valid_port_first_bindable (fun p => 7002 <=? p)
                       Fixtures.window_config []) 7002 [] E) as [_ [_ [H _]]].
    exact H.
  - apply (proj2 (proj2 (get_valid_port_first_bindable (fun _ => false)
                           Fixtures.window_config [])) "demo"%string).
    + vm_compute. reflexivity.
    + intros q _. reflexivity.
Defined.

(** ** The active branch *)

Lemma existsb_branch_name (bs : list Branch) (bn : string) :
  existsb (fun b => String.eqb (b_name b) bn) bs = true <-> In bn (map b_name bs).
Proof.
  rewrite existsb_exists, in_map_iff. split.
  - intros [b [Hin Eb]]. apply String.eqb_eq in Eb. exists b. split; assumption.
  - intros [b [Eb Hin]]. exists b. split; [exact Hin|]. apply String.eqb_eq. exact Eb.
Qed.

(** C7. For a project whose metadata is on disk, [set_active_branch]
    succeeds exactly when the name is one of the project's branches or is
    ["main"]; ["main"] is stored as no active branch, another existing branch
    by its name, and an unknown name yields [BranchNotFound] with the
    metadata left as it was. *)
Theorem set_active_branch_spec (st : MetaStore) (project_name branch_name : string)
    (project : Project) :
  st project_name = Some project ->
  p_name project = project_name ->
  exists st' r,
    Config.set_active_branch st project_name branch_name = Ret (st', r) /\
    (r = Ok tt <-> In branch_name (map b_name (branches project)) \/ branch_name = "main"%string) /\
    (branch_name = "main"%string ->
       st' project_name = Some (with_active_branch project None)) /\
    (branch_name <> "main"%string -> In branch_name (map b_name (branches project)) ->
       st' project_name = Some (with_active_branch project (Some branch_name))) /\
    (~ In branch_name (map b_name (branches project)) -> branch_name <> "main"%string ->
       r = Err (BranchNotFound branch_name) /\ st' = st).
Proof.
  intros Hst Hname. unfold Config.set_active_branch. rewrite Hst.
  destruct (existsb (fun b => String.eqb (b_name b) branch_name) (branches project))
    eqn:Eex; simpl.
  - unfold Config.save_project_changes. simpl. rewrite Hname, Hst.
    eexists; eexists; split; [reflexivity|].
    apply existsb_branch_name in Eex.
    split; [split; [intros _; left; exact Eex | reflexivity]|].
    split; [|split].
    + intros ->. unfold store_update. rewrite String.eqb_refl. reflexivity.
    + intros Hne _. unfold store_update. rewrite String.eqb_refl.
      apply String.eqb_neq in Hne. rewrite Hne. reflexivity.
    + intros Hnin. contradiction.
  - destruct (String.eqb branch_name "main") eqn:Em.
    + apply String.eqb_eq in Em. subst branch_name.
      unfold Config.save_project_changes. simpl. rewrite Hname, Hst.
      eexists; eexists; split; [reflexivity|].
      split; [split; [intros _; right; reflexivity | reflexivity]|].
      split; [|split].
      * intros _. unfold store_update. rewrite String.eqb_refl. reflexivity.
      * intros Hne. contradiction.
      * intros _ Hne. contradiction.
    + apply String.eqb_neq in Em.
      eexists; eexists; split; [reflexivity|].
      assert (Hnin : ~ In branch_name (map b_name (branches project))).
      { intros Hin. apply existsb_branch_name in Hin. congruence. }
      split; [split; [discriminate | intros [H|H]; contradiction]|].
      split; [|split].
      * intros H. contradiction.
      * intros _ H. contradiction.
      * intros _ _. split; reflexivity.
Qed.

Lemma set_active_branch_spec_witness :
  Config.set_active_branch Fixtures.demo_store "demo" "feature-x"
  = Ret (store_update Fixtures.demo_store "demo"
           (with_active_branch (Fixtures.demo_project None) (Some "feature-x"%string)),
         Ok tt) /\
  (forall st' r,
     Config.set_active_branch Fixtures.demo_store "demo" "gone" = Ret (st', r) ->
     r = Err (BranchNotFound "gone") /\ st' = Fixtures.demo_store).
Proof.
  split; [reflexivity|].
  intros st' r E.
  destruct (set_active_branch_spec Fixtures.demo_store "demo" "gone"
              (Fixtures.demo_project None) eq_refl eq_refl)
    as [st1 [r1 [E1 [_ [_ [_ Hnf]]]]]].
  rewrite E in E1. injection E1 as -> ->.
  apply Hnf.
  - simpl. intros [H|[]]. discriminate.
  - discriminate.
Defined.

(** ** Loading the configuration *)

Lemma unwrap_or_or_opt {A} (a b : option A) (d : A) :
  Config.unwrap_or (Config.or_opt a b) d = Config.layered a b d.
Proof. destruct a; [reflexivity|]. destruct b; reflexivity. Qed.

(** C8 (as amended). With no [DBRANCH_*] override set, a missing config
    file is created (in an existing config folder) holding the built-in
    defaults: API port 8080, proxy port 5432, port window 7000-7999, mount
    root [/mnt/dbranch], approach [NEW_DISK], the default PostgreSQL
    credentials, no default project and no projects; the loaded config
    carries the same values. *)
Theorem from_file_creates_defaults (env : Config.Env) (fs : Config.Fs) :
  (forall v, In v Config.override_vars -> env v = None) ->
  Config.fs_files fs
    (Config.path_join (Config.unwrap_or (env "DBRANCH_CONFIG"%string) ".config"%string)
       "dbranch.config.json") = None ->
  Config.fs_dirs fs (Config.unwrap_or (env "DBRANCH_CONFIG"%string) ".config"%string) = true ->
  exists fs' c,
    Config.from_file env fs = Ret (fs', Ok c) /\
    Config.fs_files fs'
      (Config.path_join (Config.unwrap_or (env "DBRANCH_CONFIG"%string) ".config"%string)
         "dbranch.config.json")
    = Some (Config.Parsed
              {| Config.fc_api_port := Some 8080; Config.fc_proxy_port := Some 5432;
                 Config.fc_approach := Some Config.NewDisk;
                 Config.fc_port_min := Some 7000; Config.fc_port_max := Some 7999;
                 Config.fc_mount_point := Some "/mnt/dbranch"%string;
                 Config.fc_default_project := None;
                 Config.fc_postgres_config := Some Config.default_postgres_config;
                 Config.fc_projects := Some [] |}) /\
    Config.api_port c = 8080 /\ Config.proxy_port c = 5432 /\
    Config.port_range c = (7000, 7999) /\ Config.mount_point c = "/mnt/dbranch"%string.
Proof.
  intros Henv Hfile Hdir.
  assert (E1 : env "DBRANCH_APPROACH"%string = None) by (apply Henv; simpl; tauto).
  assert (E2 : env "DBRANCH_API_PORT"%string = None) by (apply Henv; simpl; tauto).
  assert (E3 : env "DBRANCH_PROXY_PORT"%string = None) by (apply Henv; simpl; tauto).
  assert (E4 : env "DBRANCH_PORT_START"%string = None) by (apply Henv; simpl; tauto).
  assert (E5 : env "DBRANCH_PORT_END"%string = None) by (apply Henv; simpl; tauto).
  assert (E6 : env "DBRANCH_MOUNT_POINT"%string = None) by (apply Henv; simpl; tauto).
  assert (E7 : env "DBRANCH_DEFAULT_PROJECT"%string = None) by (apply Henv; simpl; tauto).
  unfold Config.from_file. rewrite Hfile. simpl. rewrite Hdir.
  eexists; eexists; split; [reflexivity|].
  unfold Config.fs_write, Config.created_file_info, Config.from_env. simpl.
  rewrite String.eqb_refl, E1, E2, E3, E4, E5, E6, E7. simpl.
  repeat split; reflexivity.
Qed.

Lemma from_file_creates_defaults_witness :
  Config.from_file (fun _ => None) Fixtures.empty_fs
  = Ret (Config.fs_write Fixtures.empty_fs ".config/dbranch.config.json"
           (Config.Parsed
              {| Config.fc_api_port := Some 8080; Config.fc_proxy_port := Some 5432;
                 Config.fc_approach := Some Config.NewDisk;
                 Config.fc_port_min := Some 7000; Config.fc_port_max := Some 7999;
                 Config.fc_mount_point := Some "/mnt/dbranch"%string;
                 Config.fc_default_project := None;
                 Config.fc_postgres_config := Some Config.default_postgres_config;
                 Config.fc_projects := Some [] |}),
         Ok (Config.from_env (fun _ => None) ".config" Config.empty_file_config)) /\
  Config.api_port (Config.from_env (fun _ => None) ".config" Config.empty_file_config) = 8080.
Proof.
  split; [reflexivity|].
  destruct (from_file_creates_defaults (fun _ => None) Fixtures.empty_fs
              (fun v _ => eq_refl) eq_refl eq_refl)
    as [fs' [c [E [_ [Hapi _]]]]].
  vm_compute in E. injection E as _ <-. exact Hapi.
Defined.

(** C8, counterexample. The claim puts API port 8000 in the created file;
    with no environment override and no file, the file written holds 8080. *)
Lemma from_file_default_api_port_not_8000 :
  match Config.from_file (fun _ => None) Fixtures.empty_fs with
  | Ret (fs', _) =>
      match Config.fs_files fs' ".config/dbranch.config.json" with
      | Some (Config.Parsed c) =>
          Config.fc_api_port c = Some 8080 /\ Config.fc_api_port c <> Some 8000
      | _ => False
      end
  | _ => False
  end.
Proof. vm_compute. split; [reflexivity | discriminate]. Qed.

(** C9 (as amended). For the API port, the proxy port, both ends of the
    port window, the mount root and the default project, [from_env] takes
    the environment variable when it is set and (for the ports) parses as a
    [u16], otherwise the file's value when present, otherwise the built-in
    default (8080, 5432, 7000, 7999, [/mnt/dbranch], none). *)
Theorem from_env_layering (env : Config.Env) (p : string) (c : Config.FileConfigInfo) :
  Config.api_port (Config.from_env env p c)
  = Config.layered (Config.bind_opt (env "DBRANCH_API_PORT"%string) Config.parse_u16)
      (Config.fc_api_port c) 8080 /\
  Config.proxy_port (Config.from_env env p c)
  = Config.layered (Config.bind_opt (env "DBRANCH_PROXY_PORT"%string) Config.parse_u16)
      (Config.fc_proxy_port c) 5432 /\
  fst (Config.port_range (Config.from_env env p c))
  = Config.layered (Config.bind_opt (env "DBRANCH_PORT_START"%string) Config.parse_u16)
      (Config.fc_port_min c) 7000 /\
  snd (Config.port_range (Config.from_env env p c))
  = Config.layered (Config.bind_opt (env "DBRANCH_PORT_END"%string) Config.parse_u16)
      (Config.fc_port_max c) 7999 /\
  Config.mount_point (Config.from_env env p c)
  = Config.layered (env "DBRANCH_MOUNT_POINT"%string) (Config.fc_mount_point c)
      "/mnt/dbranch"%string /\
  Config.default_project (Config.from_env env p c)
  = Config.layered (option_map Some (env "DBRANCH_DEFAULT_PROJECT"%string))
      (option_map Some (Config.fc_default_project c)) None.
Proof.
  unfold Config.from_env; simpl.
  repeat split; try apply unwrap_or_or_opt.
  destruct (env "DBRANCH_DEFAULT_PROJECT"%string); [reflexivity|].
  destruct (Config.fc_default_project c); reflexivity.
Qed.

(** C9, counterexample. With [DBRANCH_APPROACH=EXISTING_DISK] and
    [DBRANCH_API_PORT=80a] in the environment and a file holding [NEW_DISK]
    and 9000, both set variables lose to the file. *)
Lemma from_env_file_wins_over_set_env :
  Config.approach (Config.from_env Fixtures.env_approach_and_bad_port ".config"
                     Fixtures.file_new_disk_9000) = Config.NewDisk /\
  Config.api_port (Config.from_env Fixtures.env_approach_and_bad_port ".config"
                     Fixtures.file_new_disk_9000) = 9000 /\
  Fixtures.env_approach_and_bad_port "DBRANCH_APPROACH"%string = Some "EXISTING_DISK"%string /\
  Fixtures.env_approach_and_bad_port "DBRANCH_API_PORT"%string <> None.
Proof. vm_compute. repeat split; discriminate. Qed.

(** ** Container status *)

Import DatabaseOperator.

(** C10. [is_container_running] never fails: it is [Ok true] exactly when
    the inspect command ran, succeeded and printed a non-empty payload
    containing the [Running] field set to true (spelled ["Running":true] or
    ["Running": true], the two forms it looks for), and [Ok false] whenever
    the command errors, fails or prints nothing. *)
Theorem is_container_running_total (o : result CommandOutput string) :
  (exists b, is_container_running o = Ok b) /\
  (is_container_running o = Ok true <->
   exists out, o = Ok out /\ success out = true /\ stdout out <> EmptyString /\
     (str_contains (stdout out) running_compact
      || str_contains (stdout out) running_spaced) = true) /\
  ((exists e, o = Err e) \/
   (exists out, o = Ok out /\ (success out = false \/ stdout out = EmptyString)) ->
   is_container_running o = Ok false).
Proof.
  split; [|split].
  - destruct o as [out|e]; simpl; [|eexists; reflexivity].
    destruct (success out && negb (is_empty (stdout out))); eexists; reflexivity.
  - destruct o as [out|e]; simpl.
    + split.
      * destruct (success out) eqn:Es; simpl; [|discriminate].
        destruct (stdout out) as [|ch rest] eqn:Eo; simpl; [discriminate|].
        intros H. injection H as H. exists out.
        split; [reflexivity|]. split; [exact Es|]. rewrite Eo. split; [discriminate|].
        exact H.
      * intros [out' [E [Es [Ne Hc]]]]. injection E as <-.
        rewrite Es. destruct (stdout out) as [|ch rest]; [contradiction|].
        cbn [andb negb is_empty]. rewrite Hc. reflexivity.
    + split; [discriminate|]. intros [out [E _]]. discriminate.
  - intros [[e ->]|[out [-> [Es|Eo]]]]; simpl.
    + reflexivity.
    + rewrite Es. reflexivity.
    + rewrite Eo. rewrite andb_false_r. reflexivity.
Qed.

Lemma is_container_running_total_witness :
  is_container_running (Err "Error: No such object: demo_main"%string) = Ok false /\
  is_container_running (Ok Fixtures.running_inspect) = Ok true.
Proof.
  split.
  - apply (proj2 (proj2 (is_container_running_total
                           (Err "Error: No such object: demo_main"%string)))).
    left. eexists. reflexivity.
  - apply (proj2 (proj1 (proj2 (is_container_running_total (Ok Fixtures.running_inspect))))).
    exists Fixtures.running_inspect. split; [reflexivity|]. split; [reflexivity|].
    split; [discriminate|]. vm_compute. reflexivity.
Defined.

(** * Further properties of the code *)

(** ** Extent flags and the FIEMAP loop *)

Lemma negb_eqb_0 (z : Z) : negb (z =? 0) = true <-> z <> 0.
Proof. rewrite negb_true_iff, Z.eqb_neq. reflexivity. Qed.

(** [FiemapFlags::from_bits] lists a flag exactly when its bit is set in the
    raw word, each flag at most once; bits of no known flag are dropped. *)
Theorem from_bits_spec (x : Z) :
  (forall f, In f (from_bits x) <-> Z.land x (flag_bit f) <> 0) /\
  NoDup (from_bits x).
Proof.
  split.
  - intros f. unfold from_bits. rewrite filter_In, negb_eqb_0. split.
    + intros [_ H]. exact H.
    + intros H. split; [destruct f; simpl; tauto | exact H].
  - unfold from_bits. apply NoDup_filter.
    repeat constructor; simpl; intuition discriminate.
Qed.

Definition decoded (f : Fiemap) : Prop := flags f = from_bits (fe_flags (extent f)).
Definition not_last (f : Fiemap) : Prop := is_last (extent f) = false.

Lemma Forall_removelast {A} (P : A -> Prop) (l : list A) :
  Forall P l -> Forall P (removelast l).
Proof.
  induction l as [|a l IH]; intros H; [constructor|].
  inversion H; subst. destruct l as [|b l']; [constructor|].
  simpl. simpl in IH. constructor; [assumption|]. apply IH. assumption.
Qed.

Lemma removelast_snoc {A} (l : list A) (a : A) : removelast (l ++ [a]) = l.
Proof.
  rewrite removelast_app by discriminate. simpl. apply app_nil_r.
Qed.

Lemma scan_extents_decoded (exts : list FiemapExtent) (acc : list Fiemap) (off : Z) :
  Forall decoded acc -> Forall not_last acc ->
  let '(acc', _, found_last) := scan_extents exts acc off in
  Forall decoded acc' /\ Forall not_last (removelast acc') /\
  (found_last = false -> Forall not_last acc').
Proof.
  revert acc off; induction exts as [|e rest IH]; intros acc off Hd Hn; simpl.
  - split; [exact Hd|]. split; [apply Forall_removelast; exact Hn|]. intros _; exact Hn.
  - assert (Hd' : Forall decoded (acc ++ [{| extent := e; flags := from_bits (fe_flags e) |}]))
      by (apply Forall_app; split; [exact Hd | repeat constructor]).
    destruct (is_last e) eqn:El.
    + split; [exact Hd'|]. rewrite removelast_snoc. split; [exact Hn | discriminate].
    + apply IH; [exact Hd'|]. apply Forall_app; split; [exact Hn|].
      constructor; [exact El | constructor].
Qed.

Lemma fiemap_loop_decoded (ioctl : fiemap_ioctl) (fuel : nat) (size : Z) :
  forall off acc r calls,
  Forall decoded acc -> Forall not_last acc ->
  fiemap_loop ioctl fuel size off acc = Some (Ok r, calls) ->
  Forall decoded r /\ Forall not_last (removelast r).
Proof.
  induction fuel as [|fuel IH]; intros off acc r calls Hd Hn H; [discriminate|].
  simpl in H. destruct (ioctl (request_at size off)) as [mapped|errno]; [|discriminate].
  destruct (Nat.eqb (List.length mapped) 0).
  - injection H as <- _. split; [exact Hd | apply Forall_removelast; exact Hn].
  - pose proof (scan_extents_decoded mapped acc off Hd Hn) as Hs.
    destruct (scan_extents mapped acc off) as [[acc' off'] fl].
    destruct Hs as [Hd' [Hn' Hf]].
    destruct (fl || (Z.of_nat (List.length mapped) <? 32)) eqn:Eb.
    + injection H as <- _. split; assumption.
    + destruct fl; [discriminate|].
      destruct (fiemap_loop ioctl fuel size off' acc') as [[r' calls']|] eqn:El;
        [|discriminate].
      injection H as -> _.
      exact (IH off' acc' r calls' Hd' (Hf eq_refl) El).
Qed.

(** [check_file] returns, for every extent, the flags decoded from its raw
    flag word, and no extent carries LAST except possibly the last one
    returned. *)
Theorem check_file_extents_decoded (ioctl : fiemap_ioctl) (fuel : nat) (size : Z)
    (exts : list Fiemap) (calls : list FiemapRequest) :
  check_file ioctl fuel size = Some (Ok exts, calls) ->
  Forall (fun f => flags f = from_bits (fe_flags (extent f))) exts /\
  Forall (fun f => is_last (extent f) = false) (removelast exts).
Proof.
  unfold check_file. destruct (size =? 0).
  - intros H. injection H as <- _. split; constructor.
  - apply fiemap_loop_decoded; constructor.
Qed.

Lemma check_file_extents_decoded_witness :
  match check_file (Fixtures.block_ioctl 3) 2 12288 with
  | Some (Ok exts, calls) =>
      List.length exts = 3%nat /\
      (Forall (fun f => flags f = from_bits (fe_flags (extent f))) exts /\
       Forall (fun f => is_last (extent f) = false) (removelast exts))
  | _ => False
  end.
Proof.
  destruct (check_file (Fixtures.block_ioctl 3) 2 12288) as [[[exts|e] calls]|] eqn:E.
  - split; [|exact (check_file_extents_decoded _ _ _ _ _ E)].
    vm_compute in E. injection E as <- _. reflexivity.
  - vm_compute in E. discriminate.
  - vm_compute in E. discriminate.
Defined.

(** ** The accounting walk's totals *)

Import FolderSpec.

Lemma fold_right_add_acc (l : list Z) (b : Z) :
  fold_right Z.add b l = fold_right Z.add 0 l + b.
Proof. induction l as [|x l IH]; simpl; [reflexivity|]. rewrite IH. lia. Qed.

Lemma fold_u64_add (l : list Z) (a : Z) :
  0 <= a < u64_modulus ->
  fold_left u64_add l a = (a + fold_right Z.add 0 l) mod u64_modulus.
Proof.
  revert a; induction l as [|x l IH]; intros a Ha; simpl.
  - rewrite Z.add_0_r, Z.mod_small; [reflexivity | exact Ha].
  - rewrite IH.
    + unfold u64_add. rewrite Zplus_mod_idemp_l. f_equal. lia.
    + apply Z.mod_pos_bound. unfold u64_modulus. lia.
Qed.

Lemma u64_sum_eq (l : list Z) : u64_sum l = fold_right Z.add 0 l mod u64_modulus.
Proof.
  unfold u64_sum. rewrite fold_u64_add; [reflexivity | unfold u64_modulus; lia].
Qed.

Lemma u64_sum_app (l1 l2 : list Z) :
  u64_sum (l1 ++ l2) = u64_add (u64_sum l1) (u64_sum l2).
Proof.
  rewrite !u64_sum_eq. unfold u64_add. rewrite fold_right_app, fold_right_add_acc.
  rewrite Z.add_comm, Z.add_mod by (unfold u64_modulus; lia).
  rewrite Z.add_comm. reflexivity.
Qed.

Lemma u64_add_sum_single (a x : Z) : u64_add a x = u64_add a (u64_sum [x]).
Proof.
  rewrite u64_sum_eq. simpl. rewrite Z.add_0_r. unfold u64_add.
  rewrite Zplus_mod_idemp_r. reflexivity.
Qed.

Definition totals_ok (fi : FolderInfo) : Prop :=
  logical_size fi = u64_sum (map real_size (files fi)) /\
  folder_shared_size fi = u64_sum (map shared_size (files fi)).

Definition file_entry (f : FileInfo) : string * Z := (name f, real_size f).

Lemma get_folder_size_dir_not_none (fuel : nat) (es : Entries) :
  get_folder_size fuel (DirNode es) <> Ret None.
Proof. simpl. destruct (walk fuel es _); discriminate. Qed.

Lemma walk_totals (fuel : nat) :
  (forall n fi, get_folder_size fuel n = Ret (Some fi) ->
     totals_ok fi /\ map file_entry (files fi) = node_files n) /\
  (forall es acc r, walk fuel es acc = Ret r -> totals_ok acc ->
     totals_ok r /\ map file_entry (files r) = map file_entry (files acc) ++ entries_files es).
Proof.
  apply node_entries_mutind.
  - intros size ok io fi H. discriminate.
  - intros es IH fi H. simpl in H.
    destruct (walk fuel es _) as [r| |] eqn:E; try discriminate.
    injection H as <-.
    destruct (IH _ _ E) as [Ht Hm]; [split; reflexivity|].
    split; [exact Ht | exact Hm].
  - intros acc r H Ht. injection H as <-. split; [exact Ht|]. rewrite app_nil_r. reflexivity.
  - intros nm n IHn rest IHrest acc r H [H1 H2].
    destruct n as [size ok io | es'].
    + simpl in H. destruct ok; simpl in H; [|discriminate].
      destruct (check_file io fuel size) as [[[exts|e] calls]|]; try discriminate.
      edestruct IHrest as [Ht Hm]; [exact H| |].
      * unfold totals_ok; simpl. rewrite !map_app, !u64_sum_app, <- H1, <- H2.
        simpl. rewrite <- !u64_add_sum_single. split; reflexivity.
      * split; [exact Ht|]. rewrite Hm. simpl. rewrite map_app, <- app_assoc. reflexivity.
    + cbn [walk] in H.
      destruct (get_folder_size fuel (DirNode es')) as [[sub|]| |] eqn:Eg; try discriminate.
      * destruct (IHn sub eq_refl) as [[S1 S2] Sm].
        edestruct IHrest as [Ht Hm]; [exact H| |].
        -- unfold totals_ok; simpl. rewrite !map_app, !u64_sum_app, <- H1, <- H2, <- S1, <- S2.
           split; reflexivity.
        -- split; [exact Ht|]. rewrite Hm. simpl. rewrite map_app, Sm, <- app_assoc.
           reflexivity.
      * exfalso. exact (get_folder_size_dir_not_none fuel es' Eg).
Qed.

(** When [get_folder_size] returns a [FolderInfo], its files are the regular
    files of the tree at every depth, in directory-walk order and with their
    lengths; its logical size is the [u64] sum of their lengths and its
    shared size the [u64] sum of their shared bytes. *)
Theorem get_folder_size_totals (fuel : nat) (n : Node) (fi : FolderInfo) :
  get_folder_size fuel n = Ret (Some fi) ->
  map (fun f => (name f, real_size f)) (files fi) = node_files n /\
  logical_size fi = u64_sum (map real_size (files fi)) /\
  folder_shared_size fi = u64_sum (map shared_size (files fi)).
Proof.
  intros H. destruct (proj1 (walk_totals fuel) n fi H) as [[H1 H2] Hm].
  split; [exact Hm|]. split; assumption.
Qed.

Lemma get_folder_size_totals_witness :
  match get_folder_size 4 Fixtures.tree_two_files with
  | Ret (Some fi) =>
      map (fun f => (name f, real_size f)) (files fi) = node_files Fixtures.tree_two_files /\
      logical_size fi = u64_sum (map real_size (files fi)) /\
      folder_shared_size fi = u64_sum (map shared_size (files fi))
  | _ => False
  end.
Proof.
  destruct (get_folder_size 4 Fixtures.tree_two_files) as [[fi|]| |] eqn:E.
  - exact (get_folder_size_totals _ _ _ E).
  - vm_compute in E. discriminate.
  - vm_compute in E. discriminate.
  - vm_compute in E. discriminate.
Defined.

(** ** Configuration: serialisation, loading and saving *)

Import Config ConfigOps.

(** Deserialising [Approach] accepts exactly the two strings its
    serialiser writes, and gives back the variant that was written. *)
Theorem approach_serde_roundtrip (s : string) (a : Approach) :
  approach_deserialize s = Ok a <-> s = approach_serialize a.
Proof.
  split.
  - unfold approach_deserialize.
    destruct (String.eqb_spec s "NEW_DISK") as [->|_].
    + intros H. injection H as <-. reflexivity.
    + destruct (String.eqb_spec s "EXISTING_DISK") as [->|_].
      * intros H. injection H as <-. reflexivity.
      * discriminate.
  - intros ->. destruct a; reflexivity.
Qed.

Lemma from_file_ret (env : Env) (fs : Fs) :
  exists fs' r, from_file env fs = Ret (fs', r).
Proof.
  unfold from_file.
  destruct (fs_files fs _) as [[c|e]|]; cbn.
  - eexists; eexists; reflexivity.
  - eexists; eexists; reflexivity.
  - destruct (fs_dirs fs _); eexists; eexists; reflexivity.
Qed.

(** [Config::from_file] never panics: its one [unwrap] is reached only
    after the default document ["{}"] parsed. *)
Theorem from_file_never_panics (env : Env) (fs : Fs) :
  exists fs' r, from_file env fs = Ret (fs', r).
Proof. apply from_file_ret. Qed.

Lemma uo_idem {A} (x : option A) (d : A) :
  unwrap_or (or_opt x (Some (unwrap_or (or_opt x None) d))) d = unwrap_or (or_opt x None) d.
Proof. destruct x; reflexivity. Qed.

Lemma or_opt_idem {A} (x : option A) : or_opt x (or_opt x None) = or_opt x None.
Proof. destruct x; reflexivity. Qed.

Lemma from_env_created_fixpoint (env : Env) (p : string) :
  from_env env p (created_file_info (from_env env p empty_file_config))
  = from_env env p empty_file_config.
Proof.
  unfold from_env at 2. unfold from_env, created_file_info. cbn [fst snd].
  unfold fc_api_port, fc_proxy_port, fc_approach, fc_port_min, fc_port_max,
    fc_mount_point, fc_default_project, fc_postgres_config, fc_projects,
    empty_file_config.
  cbn [api_port proxy_port approach port_range mount_point default_project
       postgres_config projects fst snd].
  rewrite !uo_idem, or_opt_idem. reflexivity.
Qed.

Lemma from_file_err_keeps_fs (env : Env) (fs fs' : Fs) (e : AppError) :
  from_file env fs = Ret (fs', Err e) -> fs' = fs.
Proof.
  unfold from_file. destruct (fs_files fs _) as [[c|m]|]; cbn.
  - discriminate.
  - intros H. injection H as <- _. reflexivity.
  - destruct (fs_dirs fs _); [discriminate|]. intros H. injection H as <- _. reflexivity.
Qed.

Lemma from_file_ok_reload (env : Env) (fs fs' : Fs) (c : Config) :
  from_file env fs = Ret (fs', Ok c) -> from_file env fs' = Ret (fs', Ok c).
Proof.
  intros H. pose proof H as H0. revert H0. unfold from_file in *.
  destruct (fs_files fs _) as [[cf|m]|] eqn:Ef; cbn in *.
  - intros _. injection H as <- <-. rewrite Ef. reflexivity.
  - discriminate.
  - destruct (fs_dirs fs _) eqn:Ed; [|discriminate].
    intros _. injection H as <- <-. cbn. rewrite String.eqb_refl. cbn.
    rewrite from_env_created_fixpoint. reflexivity.
Qed.

(** Loading is idempotent: once [Config::from_file] returned a config
    (creating the file if it was missing), loading again with the same
    environment returns the same config and leaves the files as they are. *)
Theorem from_file_idempotent (env : Env) (fs fs' : Fs) (c : Config) :
  from_file env fs = Ret (fs', Ok c) -> from_file env fs' = Ret (fs', Ok c).
Proof. apply from_file_ok_reload. Qed.

Lemma from_file_idempotent_witness :
  match from_file (fun _ => None) Fixtures.empty_fs with
  | Ret (fs', Ok c) => from_file (fun _ => None) fs' = Ret (fs', Ok c)
  | _ => False
  end.
Proof.
  destruct (from_file (fun _ => None) Fixtures.empty_fs) as [[fs' [c|e]]| |] eqn:E.
  - exact (from_file_idempotent _ _ _ _ E).
  - vm_compute in E. discriminate.
  - vm_compute in E. discriminate.
  - vm_compute in E. discriminate.
Defined.

Lemma existsb_eqb_in (x : string) (l : list string) :
  In x l -> existsb (String.eqb x) l = true /\ existsb (fun p => String.eqb p x) l = true.
Proof.
  intros H. split; apply existsb_exists; exists x; split;
    [exact H | apply String.eqb_refl | exact H | apply String.eqb_refl].
Qed.

Lemma existsb_eqb_not_in (x : string) (l : list string) :
  ~ In x l -> existsb (String.eqb x) l = false /\ existsb (fun p => String.eqb p x) l = false.
Proof.
  intros H. split.
  - destruct (existsb (String.eqb x) l) eqn:E; [|reflexivity].
    apply existsb_exists in E. destruct E as [y [Hy Ey]].
    apply String.eqb_eq in Ey. subst. contradiction.
  - destruct (existsb (fun p => String.eqb p x) l) eqn:E; [|reflexivity].
    apply existsb_exists in E. destruct E as [y [Hy Ey]].
    apply String.eqb_eq in Ey. subst. contradiction.
Qed.

Lemma from_env_saved (env : Env) (c : Config) :
  config_path c = path_join (path c) "dbranch.config.json" ->
  (forall v, In v override_vars -> env v = None) ->
  from_env env (path c) (saved_file_info c) = c.
Proof.
  intros Hcp Henv.
  destruct c as [p cp a ap pp [lo hi] mp dp [u pw db] ps]. cbn in Hcp.
  unfold from_env, saved_file_info. cbn.
  rewrite (Henv "DBRANCH_API_PORT"%string), (Henv "DBRANCH_PROXY_PORT"%string),
    (Henv "DBRANCH_PORT_START"%string), (Henv "DBRANCH_PORT_END"%string),
    (Henv "DBRANCH_MOUNT_POINT"%string), (Henv "DBRANCH_DEFAULT_PROJECT"%string)
    by (simpl; auto 10).
  cbn. rewrite Hcp. reflexivity.
Qed.

Lemma save_config_reload (env : Env) (c : Config) (fs fs' : Fs) :
  unwrap_or (env "DBRANCH_CONFIG"%string) ".config"%string = path c ->
  config_path c = path_join (path c) "dbranch.config.json" ->
  (forall v, In v override_vars -> env v = None) ->
  save_config c fs = Ret fs' ->
  from_file env fs' = Ret (fs', Ok c) /\
  fs_files fs' (config_path c) = Some (Parsed (saved_file_info c)).
Proof.
  intros Hf Hcp Henv Hs. unfold save_config in Hs.
  destruct (fs_dirs fs (path c)); [|discriminate]. injection Hs as <-.
  assert (Hread : fs_files (fs_write fs (config_path c) (Parsed (saved_file_info c)))
                    (config_path c) = Some (Parsed (saved_file_info c)))
    by (cbn; rewrite String.eqb_refl; reflexivity).
  split; [|exact Hread].
  unfold from_file. cbv zeta. rewrite Hf, <- Hcp, Hread. cbn.
  rewrite from_env_saved by assumption. reflexivity.
Qed.

(** What [save_config] writes, [Config::from_file] reads back unchanged:
    with the environment pointing at the config's folder and setting none of
    the [DBRANCH_*] overrides, the next load returns the saved config. *)
Theorem save_config_roundtrip (env : Env) (c : Config) (fs fs' : Fs) :
  unwrap_or (env "DBRANCH_CONFIG"%string) ".config"%string = path c ->
  config_path c = path_join (path c) "dbranch.config.json" ->
  (forall v, In v override_vars -> env v = None) ->
  save_config c fs = Ret fs' ->
  from_file env fs' = Ret (fs', Ok c).
Proof. intros Hf Hcp Henv Hs. exact (proj1 (save_config_reload env c fs fs' Hf Hcp Henv Hs)). Qed.

Lemma save_config_roundtrip_witness :
  from_file (fun _ => None)
    (fs_write Fixtures.empty_fs (config_path Fixtures.demo_config)
       (Parsed (saved_file_info Fixtures.demo_config)))
  = Ret (fs_write Fixtures.empty_fs (config_path Fixtures.demo_config)
           (Parsed (saved_file_info Fixtures.demo_config)), Ok Fixtures.demo_config).
Proof.
  apply (save_config_roundtrip (fun _ => None) Fixtures.demo_config Fixtures.empty_fs).
  - reflexivity.
  - reflexivity.
  - intros v _. reflexivity.
  - reflexivity.
Defined.

(** A successful [set_default_project] persists: the config it returns has
    the project as default and the same project list, and the next
    [Config::from_file] (no [DBRANCH_*] overrides) loads exactly that
    config. *)
Theorem set_default_project_persists (env : Env) (c c' : Config) (fs fs' : Fs)
    (name : string) :
  unwrap_or (env "DBRANCH_CONFIG"%string) ".config"%string = path c ->
  config_path c = path_join (path c) "dbranch.config.json" ->
  (forall v, In v override_vars -> env v = None) ->
  set_default_project c fs name = Ret (c', fs', Ok tt) ->
  default_project c' = Some name /\ projects c' = projects c /\
  from_file env fs' = Ret (fs', Ok c').
Proof.
  intros Hf Hcp Henv H. unfold set_default_project in H.
  destruct (negb _); [discriminate|].
  unfold obind in H.
  destruct (save_config (with_default_project c (Some name)) fs) as [fs1| |] eqn:Es;
    try discriminate.
  injection H as <- <-.
  split; [reflexivity|]. split; [reflexivity|].
  exact (proj1 (save_config_reload env (with_default_project c (Some name)) fs fs1 Hf Hcp Henv Es)).
Qed.

Lemma set_default_project_persists_witness :
  match set_default_project Fixtures.demo_config Fixtures.empty_fs "other" with
  | Ret (c', fs', Ok _) =>
      default_project c' = Some "other"%string /\
      projects c' = projects Fixtures.demo_config /\
      from_file (fun _ => None) fs' = Ret (fs', Ok c')
  | _ => False
  end.
Proof.
  destruct (set_default_project Fixtures.demo_config Fixtures.empty_fs "other")
    as [[[c' fs'] [[]|e]]| |] eqn:E.
  - apply (set_default_project_persists (fun _ => None) Fixtures.demo_config c'
             Fixtures.empty_fs fs' "other" eq_refl eq_refl (fun v _ => eq_refl) E).
  - vm_compute in E. discriminate.
  - vm_compute in E. discriminate.
  - vm_compute in E. discriminate.
Defined.

(** [set_default_project] with a name that is not in the project list
    returns [ProjectNotFound] and changes nothing; [Commands::SetDefault]
    [unwrap]s that error and panics. *)
Theorem set_default_unknown_project (c : Config) (fs : Fs) (name : string) :
  ~ In name (projects c) ->
  set_default_project c fs name = Ret (c, fs, Err (ProjectNotFound name)) /\
  Commands.handle_set_default c fs name = Panic unwrap_err_msg.
Proof.
  intros Hn. destruct (existsb_eqb_not_in name (projects c) Hn) as [_ E].
  assert (H : set_default_project c fs name = Ret (c, fs, Err (ProjectNotFound name)))
    by (unfold set_default_project; rewrite E; reflexivity).
  split; [exact H|]. unfold Commands.handle_set_default. rewrite H. reflexivity.
Qed.

Lemma set_default_unknown_project_witness :
  Commands.handle_set_default Fixtures.demo_config Fixtures.empty_fs "nope"
  = Panic unwrap_err_msg.
Proof.
  apply (set_default_unknown_project Fixtures.demo_config Fixtures.empty_fs "nope").
  simpl. intuition discriminate.
Defined.

(** ** Project bookkeeping *)

(** [Config::remove_project] refuses a name that is not listed
    ([ProjectNotFound], nothing changed). When it succeeds, the new list is
    the old one without that name, the others in their order, the project's
    metadata is gone while every other project's is kept, and the saved
    config file holds the new config. *)
Theorem remove_project_spec (rmdir : string -> result unit (bool * string))
    (c : Config) (st : MetaStore) (fs : Fs) (name : string) :
  (~ In name (projects c) ->
   remove_project rmdir c st fs name = Ret (c, st, fs, Err (ProjectNotFound name))) /\
  (forall c' st' fs',
   remove_project rmdir c st fs name = Ret (c', st', fs', Ok tt) ->
   projects c' = filter (fun p => negb (String.eqb p name)) (projects c) /\
   ~ In name (projects c') /\
   st' name = None /\ (forall k, k <> name -> st' k = st k) /\
   fs_files fs' (config_path c) = Some (Parsed (saved_file_info c'))).
Proof.
  split.
  - intros Hn. unfold remove_project.
    rewrite (proj1 (existsb_eqb_not_in name (projects c) Hn)). reflexivity.
  - intros c' st' fs' H. unfold remove_project in H.
    destruct (negb _); [discriminate|].
    set (c1 := with_projects c (filter (fun p => negb (String.eqb p name)) (projects c))) in H.
    assert (Hsave : forall st1, obind (save_config c1 fs) (fun fs1 => Ret (c1, st1, fs1, @Ok unit AppError tt))
                                = Ret (c', st', fs', Ok tt) ->
               c' = c1 /\ st' = st1 /\
               fs_files fs' (config_path c) = Some (Parsed (saved_file_info c'))).
    { intros st1 Hs. unfold save_config in Hs. cbn in Hs.
      destruct (fs_dirs fs (path c)); [|discriminate].
      injection Hs as <- <- <-. split; [reflexivity|]. split; [reflexivity|].
      cbn. rewrite String.eqb_refl. reflexivity. }
    assert (Hlist : projects c1 = filter (fun p => negb (String.eqb p name)) (projects c)
                    /\ ~ In name (projects c1)).
    { split; [reflexivity|]. cbn. rewrite filter_In. intros [_ Hx].
      rewrite String.eqb_refl in Hx. discriminate. }
    destruct (st name) as [p|] eqn:Est.
    + destruct (rmdir name) as [u|[mg e]]; [|discriminate].
      destruct (Hsave _ H) as [-> [-> Hf]].
      split; [apply Hlist|]. split; [apply Hlist|].
      split; [unfold store_remove; rewrite String.eqb_refl; reflexivity|].
      split; [|exact Hf].
      intros k Hk. unfold store_remove. apply String.eqb_neq in Hk. rewrite Hk. reflexivity.
    + destruct (Hsave _ H) as [-> [-> Hf]].
      split; [apply Hlist|]. split; [apply Hlist|].
      split; [exact Est|]. split; [intros; reflexivity | exact Hf].
Qed.

Lemma remove_project_spec_witness :
  match remove_project (fun _ => Ok tt) Fixtures.demo_config Fixtures.demo_store
          Fixtures.empty_fs "demo" with
  | Ret (c', st', fs', Ok _) =>
      projects c' = ["other"%string] /\
      (projects c' = filter (fun p => negb (String.eqb p "demo")) (projects Fixtures.demo_config) /\
       ~ In "demo"%string (projects c') /\
       st' "demo"%string = None /\
       (forall k, k <> "demo"%string -> st' k = Fixtures.demo_store k) /\
       fs_files fs' (config_path Fixtures.demo_config) = Some (Parsed (saved_file_info c')))
  | _ => False
  end /\
  remove_project (fun _ => Ok tt) Fixtures.demo_config Fixtures.demo_store Fixtures.empty_fs "nope"
  = Ret (Fixtures.demo_config, Fixtures.demo_store, Fixtures.empty_fs, Err (ProjectNotFound "nope")).
Proof.
  split.
  - destruct (remove_project (fun _ => Ok tt) Fixtures.demo_config Fixtures.demo_store
                Fixtures.empty_fs "demo") as [[[[c' st'] fs'] [[]|e]]| |] eqn:E.
    + split.
      * vm_compute in E. injection E as <- _ _. reflexivity.
      * exact (proj2 (remove_project_spec (fun _ => Ok tt) Fixtures.demo_config
                        Fixtures.demo_store Fixtures.empty_fs "demo") c' st' fs' E).
    + vm_compute in E. discriminate.
    + vm_compute in E. discriminate.
    + vm_compute in E. discriminate.
  - apply (proj1 (remove_project_spec (fun _ => Ok tt) Fixtures.demo_config
                    Fixtures.demo_store Fixtures.empty_fs "nope")).
    simpl. intuition discriminate.
Defined.

(** When [fs::remove_dir_all] of a listed project's directory fails,
    [remove_project] returns [FileSystem] without saving: the config file on
    disk still lists the project, while the in-memory list has already
    dropped it. The project's own metadata may or may not be gone; every
    other project's metadata is kept. *)
Theorem remove_project_rmdir_failure (rmdir : string -> result unit (bool * string))
    (c : Config) (st : MetaStore) (fs : Fs) (name : string) (p : Project)
    (metadata_gone : bool) (e : string) :
  In name (projects c) -> st name = Some p -> rmdir name = Err (metadata_gone, e) ->
  exists c' st',
    remove_project rmdir c st fs name
    = Ret (c', st', fs, Err (FileSystem ("Failed to remove project directory: " ++ e)%string)) /\
    projects c' = filter (fun q => negb (String.eqb q name)) (projects c) /\
    ~ In name (projects c') /\
    (forall k, k <> name -> st' k = st k).
Proof.
  intros Hin Hst Hrm. unfold remove_project.
  rewrite (proj1 (existsb_eqb_in name (projects c) Hin)), Hst, Hrm. cbn [negb].
  do 2 eexists. split; [reflexivity|]. split; [reflexivity|]. split.
  - cbn. rewrite filter_In. intros [_ Hx]. rewrite String.eqb_refl in Hx. discriminate.
  - intros k Hk. destruct metadata_gone; [|reflexivity].
    unfold store_remove. apply String.eqb_neq in Hk. rewrite Hk. reflexivity.
Qed.

Lemma remove_project_rmdir_failure_witness :
  exists c' st',
    remove_project (fun _ => Err (true, "Permission denied (os error 13)"%string))
      Fixtures.demo_config Fixtures.demo_store Fixtures.empty_fs "demo"
    = Ret (c', st', Fixtures.empty_fs,
           Err (FileSystem ("Failed to remove project directory: "
                            ++ "Permission denied (os error 13)")%string)) /\
    projects c' = filter (fun q => negb (String.eqb q "demo")) (projects Fixtures.demo_config) /\
    ~ In "demo"%string (projects c') /\
    (forall k, k <> "demo"%string -> st' k = Fixtures.demo_store k).
Proof.
  apply (remove_project_rmdir_failure _ Fixtures.demo_config Fixtures.demo_store
           Fixtures.empty_fs "demo" (Fixtures.demo_project None) true).
  - simpl. auto.
  - reflexivity.
  - reflexivity.
Defined.

Lemma existsb_snoc_name (l : list string) (x : string) :
  existsb (fun p => String.eqb p x) (l ++ [x]) = true.
Proof. apply existsb_exists. exists x. rewrite in_app_iff. simpl. rewrite String.eqb_refl. auto. Qed.

(** The end of [Commands::Init] never panics once the config folder exists:
    [add_project] stores the project's metadata and appends its name to the
    list (even a name already listed), and when no default project was set
    the [set_default_project(name).unwrap()] that follows succeeds; the
    config file then holds the final config. *)
Theorem init_register_ok (c : Config) (st : MetaStore) (fs : Fs) (project : Project) :
  fs_dirs fs (path c) = true ->
  exists c' fs',
    Commands.init_register c st fs project
    = Ret (c', store_update st (p_name project) project, fs', Ok tt) /\
    projects c' = projects c ++ [p_name project] /\
    default_project c' = Some (unwrap_or (default_project c) (p_name project)) /\
    fs_files fs' (config_path c) = Some (Parsed (saved_file_info c')).
Proof.
  intros Hd. unfold Commands.init_register, add_project, create_project.
  assert (Hde : match st (p_name project) with Some _ => true | None => fs_dirs fs (path c) end
                = true) by (destruct (st (p_name project)); [reflexivity | exact Hd]).
  rewrite Hde. cbn [obind]. unfold save_config. cbn [path with_projects]. rewrite Hd.
  cbn [obind default_project with_projects].
  destruct (default_project c) as [d|] eqn:Edp.
  - eexists; eexists. split; [reflexivity|]. split; [reflexivity|].
    split; [cbn; rewrite Edp; reflexivity|].
    cbn. rewrite String.eqb_refl. reflexivity.
  - unfold set_default_project. cbn [projects with_projects].
    rewrite existsb_snoc_name. cbn [negb obind]. unfold save_config.
    cbn [path with_default_project with_projects fs_dirs fs_write]. rewrite Hd.
    cbn [obind].
    eexists; eexists. split; [reflexivity|]. split; [reflexivity|].
    split; [reflexivity|].
    cbn. rewrite String.eqb_refl. reflexivity.
Qed.

Lemma init_register_ok_witness :
  exists c' fs',
    Commands.init_register Fixtures.first_config Fixtures.demo_store Fixtures.empty_fs
      (Fixtures.demo_project None)
    = Ret (c', store_update Fixtures.demo_store "demo" (Fixtures.demo_project None), fs', Ok tt) /\
    projects c' = projects Fixtures.first_config ++ ["demo"%string] /\
    default_project c' = Some (unwrap_or (default_project Fixtures.first_config) "demo"%string) /\
    fs_files fs' (config_path Fixtures.first_config) = Some (Parsed (saved_file_info c')).
Proof.
  apply (init_register_ok Fixtures.first_config Fixtures.demo_store Fixtures.empty_fs
           (Fixtures.demo_project None)).
  reflexivity.
Defined.

(** A branch added by [Config::create_branch] is appended to the project's
    metadata and can be selected at once: [set_active_branch] on it then
    succeeds and records it as active (for a metadata file whose [name]
    matches its directory). *)
Theorem create_branch_then_select (st : MetaStore) (pn bn : string) (port t : Z)
    (project : Project) :
  st pn = Some project -> p_name project = pn ->
  let project1 := push_branch project {| b_name := bn; b_port := port; b_created_at := t |} in
  create_branch st pn bn port t = Ret (store_update st pn project1, Ok tt) /\
  set_active_branch (store_update st pn project1) pn bn
  = Ret (store_update (store_update st pn project1) pn
           (with_active_branch project1 (if String.eqb bn "main" then None else Some bn)),
         Ok tt).
Proof.
  intros Hst Hn. cbv zeta.
  set (project1 := push_branch project {| b_name := bn; b_port := port; b_created_at := t |}).
  assert (Hn1 : p_name project1 = pn) by exact Hn.
  assert (E1 : store_update st pn project1 pn = Some project1)
    by (unfold store_update; rewrite String.eqb_refl; reflexivity).
  split.
  - unfold create_branch, save_project_changes. rewrite Hst. fold project1.
    rewrite Hn1, Hst. reflexivity.
  - unfold set_active_branch. rewrite E1.
    assert (Hb : existsb (fun b => String.eqb (b_name b) bn) (branches project1) = true).
    { apply existsb_exists. exists {| b_name := bn; b_port := port; b_created_at := t |}.
      split; [apply in_or_app; right; left; reflexivity | apply String.eqb_refl]. }
    rewrite Hb. cbn [orb]. unfold save_project_changes.
    change (p_name (with_active_branch project1 ?a)) with (p_name project1).
    rewrite Hn1, E1. reflexivity.
Qed.

Lemma create_branch_then_select_witness :
  create_branch Fixtures.demo_store "demo" "feature-y" 7002 0
  = Ret (store_update Fixtures.demo_store "demo"
           (push_branch (Fixtures.demo_project None)
              {| b_name := "feature-y"; b_port := 7002; b_created_at := 0 |}), Ok tt) /\
  set_active_branch
    (store_update Fixtures.demo_store "demo"
       (push_branch (Fixtures.demo_project None)
          {| b_name := "feature-y"; b_port := 7002; b_created_at := 0 |})) "demo" "feature-y"
  = Ret (store_update
           (store_update Fixtures.demo_store "demo"
              (push_branch (Fixtures.demo_project None)
                 {| b_name := "feature-y"; b_port := 7002; b_created_at := 0 |})) "demo"
           (with_active_branch
              (push_branch (Fixtures.demo_project None)
                 {| b_name := "feature-y"; b_port := 7002; b_created_at := 0 |})
              (if String.eqb "feature-y" "main" then None else Some "feature-y"%string)),
         Ok tt).
Proof.
  apply (create_branch_then_select Fixtures.demo_store "demo" "feature-y" 7002 0
           (Fixtures.demo_project None)); reflexivity.
Defined.

(** [Commands::Use] never panics when the default project's metadata names
    its own directory: with no default project or no metadata it returns
    [DefaultProjectNotFound], for a name that is neither a branch nor
    [main] it returns [BranchNotFound] and changes nothing, and otherwise it
    records the branch ([None] for [main]) as active and returns [Ok]. *)
Theorem handle_use_spec (c : Config) (st : MetaStore) (name : string) :
  (forall d p, default_project c = Some d -> st d = Some p -> p_name p = d) ->
  Commands.handle_use c st name =
  match get_project_info c st None with
  | None => Ret (st, Err DefaultProjectNotFound)
  | Some p =>
      if existsb (fun b => String.eqb (b_name b) name) (branches p)
         || String.eqb name "main" then
        Ret (store_update st (p_name p)
               (with_active_branch p (if String.eqb name "main" then None else Some name)),
             Ok tt)
      else Ret (st, Err (BranchNotFound name))
  end.
Proof.
  intros Hcons. unfold Commands.handle_use, get_project_info.
  destruct (default_project c) as [d|] eqn:Ed; [|reflexivity].
  destruct (st d) as [p|] eqn:Ep; [|reflexivity].
  pose proof (Hcons d p eq_refl Ep) as Hn.
  destruct (existsb (fun b => String.eqb (b_name b) name) (branches p)) eqn:Eb;
    destruct (String.eqb name "main") eqn:Em; cbn [negb andb orb].
  all: try reflexivity.
  all: unfold set_active_branch; rewrite Hn, Ep, Eb, Em; cbn [orb obind];
       unfold save_project_changes; cbn [p_name with_active_branch];
       rewrite Hn, Ep; reflexivity.
Qed.

Lemma handle_use_spec_witness :
  Commands.handle_use Fixtures.demo_config Fixtures.demo_store "feature-x"
  = Ret (store_update Fixtures.demo_store "demo"
           (with_active_branch (Fixtures.demo_project None) (Some "feature-x"%string)), Ok tt).
Proof.
  rewrite (handle_use_spec Fixtures.demo_config Fixtures.demo_store "feature-x").
  - reflexivity.
  - intros d p Hd Hp. vm_compute in Hd. injection Hd as <-.
    vm_compute in Hp. injection Hp as <-. reflexivity.
Defined.

(** ** The configuration reload of the proxy *)

(** A round of [sync_config] never panics, and it is stable: with nothing
    changed on disk, a second round leaves the files, the shared config
    and the shared project snapshot as the first round left them. *)
Theorem sync_tick_stable (env : Env) (fs : Fs) (st : MetaStore)
    (config : Config) (project : option Project) :
  exists fs1 config1 project1,
    Sync.sync_tick env fs st config project = Ret (fs1, config1, project1) /\
    Sync.sync_tick env fs1 st config1 project1 = Ret (fs1, config1, project1).
Proof.
  unfold Sync.sync_tick.
  destruct (from_file_ret env fs) as [fs' [r E]]. rewrite E. cbn [obind].
  destruct r as [c|e].
  - do 3 eexists. split; [reflexivity|].
    rewrite (from_file_ok_reload env fs fs' c E). reflexivity.
  - pose proof (from_file_err_keeps_fs env fs fs' e E) as ->.
    do 3 eexists. split; [reflexivity|]. rewrite E. reflexivity.
Qed.
